(** * Google Drive document conversion: a shallow embedding

    This development embeds
    [backend/onyx/connectors/google_drive/doc_conversion.py] and states the
    properties of its three entry points:

    - [_extract_sections_basic], the MIME-keyed section extractor;
    - [convert_drive_item_to_document], the document assembler;
    - [build_slim_document], the permission-only projection.

    Python exceptions are explicit: every computation has an [outcome].
    The Drive, Docs and Sheets clients and the binary decoders are
    collaborators outside the module; they are the fields of a [World]
    record, each a function of its request that either answers or raises. *)

From stdpp Require Import gmap strings list pretty.
From Stdlib Require Import ZArith Lia.

Open Scope string_scope.
Open Scope Z_scope.
Open Scope list_scope.

(** ** Python runtime fragment *)

Module Py.

(** [googleapiclient.errors.HttpError], reduced to the attributes the
    module reads: [status_code], [reason] and [error_details]. *)
Record HttpErrorInfo := mkHttpError {
  status_code : Z;
  reason : string;
  error_details : list (gmap string string)
}.

(** Exception values. Every constructor stands for a subclass of Python's
    [Exception], so an [except Exception] clause catches all of them;
    [KeyboardInterrupt] and the other exceptions outside [Exception] are
    not modelled. *)
Inductive exn :=
| KeyError (key : string)
| IndexError
| ValueError (msg : string)
| UnicodeDecodeError
| HttpError (info : HttpErrorInfo)
| OtherError (cls : string).

(** What running a piece of code leads to. [Diverges] is a loop that
    never exits; no [except] clause sees it. *)
Inductive outcome (A : Type) :=
| Returns (a : A)
| Raises (e : exn)
| Diverges.
Arguments Returns {A} a.
Arguments Raises {A} e.
Arguments Diverges {A}.

(** A collaborator's answer to one call: a value or an exception. *)
Inductive reply (A : Type) :=
| Ok (a : A)
| Err (e : exn).
Arguments Ok {A} a.
Arguments Err {A} e.

Definition call {A} (r : reply A) : outcome A :=
  match r with
  | Ok a => Returns a
  | Err e => Raises e
  end.

Definition bind {A B} (m : outcome A) (k : A -> outcome B) : outcome B :=
  match m with
  | Returns a => k a
  | Raises e => Raises e
  | Diverges => Diverges
  end.

(** [try: body / except Exception as e: handler e] *)
Definition try_except {A} (body : outcome A) (handler : exn -> outcome A)
  : outcome A :=
  match body with
  | Raises e => handler e
  | o => o
  end.

(** [d[k]] on a dict *)
Definition getitem {V} (d : gmap string V) (k : string) : outcome V :=
  match d !! k with
  | Some v => Returns v
  | None => Raises (KeyError k)
  end.

(** [l[0]] on a list *)
Definition first_item {A} (l : list A) : outcome A :=
  match l with
  | x :: _ => Returns x
  | [] => Raises IndexError
  end.

(** [x in l] for strings *)
Definition in_list (x : string) (l : list string) : bool :=
  existsb (String.eqb x) l.
#[global] Arguments in_list : simpl never.

(** truth value of a list, [not l] being its negation *)
Definition truthy {A} (l : list A) : bool :=
  match l with
  | [] => false
  | _ :: _ => true
  end.

(** [chr], used here on code points below 256 only *)
Definition chr (code : Z) : Ascii.ascii := Ascii.ascii_of_N (Z.to_N code).

Definition newline : string := String (chr 10) "".
Definition tab : string := String (chr 9) "".

End Py.
Export Py.

(** The sequencing of statements is stdpp's monadic bind: [x ← m; k]. *)
#[global] Instance outcome_ret : MRet outcome := @Returns.
#[global] Instance outcome_bind : MBind outcome := fun A B k m => bind m k.

(** ** Column count to column letters (lines 78-82)

<<
    end_column = ""
    while column_count:
        column_count, remainder = divmod(column_count - 1, 26)
        end_column = chr(65 + remainder) + end_column
>>
    The loop runs on a Python [int]. [fuel] bounds the number of iterations;
    [None] means the fuel ran out before [column_count] reached zero. *)

Fixpoint column_letter_loop (fuel : nat) (column_count : Z) (end_column : string)
  : option string :=
  if column_count =? 0 then Some end_column
  else
    match fuel with
    | O => None
    | S fuel' =>
        let remainder := (column_count - 1) mod 26 in
        column_letter_loop fuel' ((column_count - 1) / 26)
                           (String (chr (65 + remainder)) end_column)
    end.

(** A positive count strictly decreases, so [column_count] iterations are
    enough; for a negative count no fuel is (lemma [column_letter_loop_negative]). *)
Definition column_letters (column_count : Z) : option string :=
  column_letter_loop (Z.to_nat column_count) column_count "".

(** The value of a column label in bijective base 26 ([A] = 1, ..., [Z] = 26),
    read left to right. It is the inverse the round-trip theorem uses. *)
Fixpoint column_value_from (acc : Z) (label : string) : Z :=
  match label with
  | EmptyString => acc
  | String c rest =>
      column_value_from (26 * acc + (Z.of_N (Ascii.N_of_ascii c) - 64)) rest
  end.

Definition column_value (label : string) : Z := column_value_from 0 label.

Definition is_upper_letter (c : Ascii.ascii) : bool :=
  (65 <=? Z.of_N (Ascii.N_of_ascii c)) && (Z.of_N (Ascii.N_of_ascii c) <=? 90).

Fixpoint all_upper_letters (label : string) : bool :=
  match label with
  | EmptyString => true
  | String c rest => is_upper_letter c && all_upper_letters rest
  end.

(** ** Data model *)

(** [onyx.connectors.models.Section]: a link and a text. *)
Record TextSection := mkSection {
  link : string;
  text : string
}.

(** [onyx.connectors.models.Document], with the fields the assembler sets.
    [source] is always [DocumentSource.GOOGLE_DRIVE] and is left out;
    [doc_updated_at] is the instant in UTC as the clock collaborator gives it. *)
Record Document := mkDocument {
  id : string;
  sections : list TextSection;
  semantic_identifier : string;
  doc_updated_at : Z;
  metadata : gmap string string;
  additional_info : option string
}.

(** The [perm_sync_data] dict of a [SlimDocument]: six fixed keys. A
    [None] is Python's [None]. *)
Record PermSyncData := mkPermSyncData {
  doc_id : option string;
  drive_id : option string;
  permissions : list (gmap string string);
  permission_ids : list string;
  name : option string;
  owner_email : option string
}.

Record SlimDocument := mkSlimDocument {
  slim_id : string;
  perm_sync_data : PermSyncData
}.

(** [GoogleDriveFileType], the Drive API's file resource as a Python dict.
    Keys may be missing, which the code observes through [file[k]] and
    [file.get(k)]. The string-valued keys ([id], [name], [mimeType],
    [webViewLink], [modifiedTime], [driveId], ...) are kept in one map;
    the three list-valued keys the module reads are optional fields. *)
Record GoogleDriveFileType := mkFile {
  str_fields : gmap string string;
  file_owners : option (list (gmap string string));
  file_permissions : option (list (gmap string string));
  file_permissionIds : option (list string)
}.

(** [file[k]] and [file.get(k)] for a string-valued key *)
Definition file_getitem (file : GoogleDriveFileType) (k : string) : outcome string :=
  getitem (str_fields file) k.

Definition file_get (file : GoogleDriveFileType) (k : string) : option string :=
  str_fields file !! k.

(** *** Answers of the Sheets API

    The answers follow the API's schema: a key the code reads with [d[k]]
    is a field, a key it reads with [d.get(k, default)] is an optional
    field. *)

(** A cell of a value range or of a worksheet row. *)
Inductive cell :=
| CStr (s : string)
| CInt (n : Z)
| CBool (b : bool)
| CNone.

(** [str(cell)] *)
Definition py_str (c : cell) : string :=
  match c with
  | CStr s => s
  | CInt n => pretty n
  | CBool true => "True"
  | CBool false => "False"
  | CNone => "None"
  end.

(** [sheet["properties"]["gridProperties"]]; both counts are read with [.get] *)
Record GridProperties := mkGrid {
  rowCount : option Z;
  columnCount : option Z
}.

(** [sheet["properties"]]; [gridProperties] is read with [.get] *)
Record SheetProperties := mkSheet {
  title : string;
  sheetId : Z;
  gridProperties : option GridProperties
}.

(** The answer of [spreadsheets().get]: the sheets in order. *)
Record Spreadsheet := mkSpreadsheet {
  sheets : list SheetProperties
}.

(** The answer of [spreadsheets().values().get]; [values] is read with [.get] *)
Record ValueRange := mkValueRange {
  values : option (list (list cell))
}.

(** *** A workbook as [openpyxl] presents it *)

Record Worksheet := mkWorksheet {
  ws_title : string;
  ws_rows : list (list cell)
}.

Record Workbook := mkWorkbook {
  worksheets : list Worksheet
}.

Definition bytes : Type := list Byte.byte.

(** ** Constants imported from other modules

    [GDriveMimeType] is an enumeration of strings declared in
    [google_drive/models.py]; the ten members this module names are fields,
    and [other_members] are the values of any further member. The remaining
    fields are the constants of [google_drive/constants.py],
    [configs/constants.py] and [configs/app_configs.py]. *)
Record Config := mkConfig {
  DOC : string;
  SPREADSHEET : string;
  SPREADSHEET_OPEN_FORMAT : string;
  SPREADSHEET_MS_EXCEL : string;
  PDF : string;
  WORD_DOC : string;
  PPT : string;
  POWERPOINT : string;
  PLAIN_TEXT : string;
  MARKDOWN : string;
  other_members : list string;
  DRIVE_FOLDER_TYPE : string;
  DRIVE_SHORTCUT_TYPE : string;
  UNSUPPORTED_FILE_TYPE_CONTENT : string;
  IGNORE_FOR_QA : string;
  CONTINUE_ON_CONNECTOR_FAILURE : bool
}.

(** [set(item.value for item in GDriveMimeType)] *)
Definition supported_file_types (cfg : Config) : list string :=
  [DOC cfg; SPREADSHEET cfg; SPREADSHEET_OPEN_FORMAT cfg; SPREADSHEET_MS_EXCEL cfg;
   PDF cfg; WORD_DOC cfg; PPT cfg; POWERPOINT cfg; PLAIN_TEXT cfg; MARKDOWN cfg]
  ++ other_members cfg.

(** lines 36-40 *)
Definition ERRORS_TO_CONTINUE_ON : list string :=
  ["cannotExportFile"; "exportSizeLimitExceeded"; "cannotDownloadFile"].

(** ** Collaborators

    Each field is one remote call or decoder of the module, as a function
    of its arguments. A call answers with a value or raises; it does not
    hang.
    - [sheets_build]: [build("sheets", "v4", credentials=...)];
    - [spreadsheets_get id]: [spreadsheets().get(spreadsheetId=id).execute()];
    - [values_get id range]: [spreadsheets().values().get(...).execute()];
    - [files_get_media id], [files_export id mime]: the Drive calls;
    - [decode_utf8]: [bytes.decode("utf-8")];
    - [load_workbook]: writing the bytes to the temporary file, opening it
      with [openpyxl.load_workbook(..., read_only=True)] and reading the
      rows of its worksheets;
    - [get_unstructured_api_key], [unstructured_to_text], [docx_to_text],
      [pptx_to_text], [read_pdf_file] (its text component): the decoders;
    - [get_document_sections id]: the structured Google Docs extractor;
    - [fromisoformat_utc]: [datetime.fromisoformat(s).astimezone(timezone.utc)]. *)
Record World := mkWorld {
  sheets_build : reply unit;
  spreadsheets_get : string -> reply Spreadsheet;
  values_get : string -> string -> reply ValueRange;
  files_get_media : string -> reply bytes;
  files_export : string -> string -> reply bytes;
  decode_utf8 : bytes -> reply string;
  load_workbook : bytes -> reply Workbook;
  get_unstructured_api_key : option string;
  unstructured_to_text : bytes -> string -> reply string;
  docx_to_text : bytes -> reply string;
  pptx_to_text : bytes -> reply string;
  read_pdf_file : bytes -> reply string;
  get_document_sections : string -> reply (list TextSection);
  fromisoformat_utc : string -> reply Z
}.

(** ** The module's functions *)

Section DocConversion.

Variable cfg : Config.
Variable w : World.

(** *** [_extract_sections_basic], native spreadsheets (lines 59-110) *)

(** lines 74-76: the declared extent, with the defaults of [.get] *)
Definition row_count (sheet : SheetProperties) : Z :=
  match gridProperties sheet with
  | Some grid_properties => default 1000 (rowCount grid_properties)
  | None => 1000
  end.

Definition column_count (sheet : SheetProperties) : Z :=
  match gridProperties sheet with
  | Some grid_properties => default 26 (columnCount grid_properties)
  | None => 26
  end.

(** line 84 *)
Definition range_name (sheet : SheetProperties) (end_column : string) : string :=
  "'" +:+ title sheet +:+ "'!A1:" +:+ end_column +:+ pretty (row_count sheet).

(** lines 96-98: the header line, then one line per row *)
Definition sheet_text (sheet_name : string) (rows : list (list cell)) : string :=
  fold_left
    (fun text row => text +:+ String.concat tab (map py_str row) +:+ newline)
    rows ("Sheet: " +:+ sheet_name +:+ newline).

(** lines 86-109: the inner [try] of one iteration. The result is the
    [sections] list after the iteration; [except HttpError] leaves it as
    it was and any other exception goes on. *)
Definition fetch_sheet (file : GoogleDriveFileType) (link : string)
    (sheet : SheetProperties) (end_column : string)
    (sections : list TextSection) : outcome (list TextSection) :=
  try_except
    (file_id ← file_getitem file "id";
     result ← call (values_get w file_id (range_name sheet end_column));
     let values := default [] (values result) in
     if truthy values
     then Returns (sections ++
                   [mkSection (link +:+ "#gid=" +:+ pretty (sheetId sheet))
                              (sheet_text (title sheet) values)])
     else Returns sections)
    (fun e =>
       match e with
       | HttpError _ => Returns sections
       | _ => Raises e
       end).

(** lines 69-110: the [for] loop over the sheets, [sections] accumulating *)
Fixpoint sheets_loop (file : GoogleDriveFileType) (link : string)
    (todo : list SheetProperties) (sections : list TextSection)
  : outcome (list TextSection) :=
  match todo with
  | [] => Returns sections
  | sheet :: rest =>
      match column_letters (column_count sheet) with
      | None => Diverges
      | Some end_column =>
          sections' ← fetch_sheet file link sheet end_column sections;
          sheets_loop file link rest sections'
      end
  end.

(** lines 59-110: the body of the [try] of the native spreadsheet branch *)
Definition sheets_extraction (file : GoogleDriveFileType) (link : string)
  : outcome (list TextSection) :=
  call (sheets_build w);;
  file_id ← file_getitem file "id";
  spreadsheet ← call (spreadsheets_get w file_id);
  sheets_loop file link (sheets spreadsheet) [].

(** *** Excel workbooks (lines 124-152) *)

Definition worksheet_section (link : string) (sheet : Worksheet) : TextSection :=
  mkSection link
    ("Sheet: " +:+ ws_title sheet +:+ newline +:+ newline +:+
     String.concat (newline +:+ newline)
       (map (fun row => String.concat "," (map py_str row))
            (filter (fun row => truthy row = true) (ws_rows sheet)))).

Definition excel_extraction (file : GoogleDriveFileType) (link : string)
  : outcome (list TextSection) :=
  file_id ← file_getitem file "id";
  response ← call (files_get_media w file_id);
  workbook ← call (load_workbook w response);
  Returns (map (worksheet_section link) (worksheets workbook)).

(** lines 57-160. [Some sections] is a [return sections]; [None] is
    control reaching line 164. Both handlers format [file['name']] into
    their log message. *)
Definition spreadsheet_branches (file : GoogleDriveFileType)
    (mime_type link : string) : outcome (option (list TextSection)) :=
  if String.eqb mime_type (SPREADSHEET cfg) then
    try_except
      (sections ← sheets_extraction file link; Returns (Some sections))
      (fun e => file_getitem file "name";; Returns None)
  else if in_list mime_type [SPREADSHEET_OPEN_FORMAT cfg; SPREADSHEET_MS_EXCEL cfg] then
    try_except
      (sections ← excel_extraction file link; Returns (Some sections))
      (fun e =>
         file_getitem file "name";;
         Returns (Some [mkSection link "Error extracting data from Excel file"]))
  else Returns None.

(** *** Export of native types (lines 169-180) *)
Definition export_extraction (file : GoogleDriveFileType)
    (mime_type link : string) : outcome (list TextSection) :=
  let export_mime_type :=
    if negb (String.eqb mime_type (SPREADSHEET cfg))
    then "text/plain" else "text/csv" in
  file_id ← file_getitem file "id";
  exported ← call (files_export w file_id export_mime_type);
  text ← call (decode_utf8 w exported);
  Returns [mkSection link text].

(** *** Plain text and Markdown (lines 188-196) *)
Definition plain_text_extraction (file : GoogleDriveFileType) (link : string)
  : outcome (list TextSection) :=
  file_id ← file_getitem file "id";
  response ← call (files_get_media w file_id);
  text ← call (decode_utf8 w response);
  Returns [mkSection link text].

(** *** Word, PowerPoint and PDF (lines 204-226) *)

(** truth value of [get_unstructured_api_key()] *)
Definition unstructured_enabled : bool :=
  match get_unstructured_api_key w with
  | Some key => negb (String.eqb key "")
  | None => false
  end.

(** [None] is control leaving the [if] at line 226 without a [return]. *)
Definition binary_extraction (file : GoogleDriveFileType)
    (mime_type link : string) : outcome (option (list TextSection)) :=
  file_id ← file_getitem file "id";
  response ← call (files_get_media w file_id);
  if unstructured_enabled then
    fallback_name ← file_getitem file "id";
    text ← call (unstructured_to_text w response
                   (default fallback_name (file_get file "name")));
    Returns (Some [mkSection link text])
  else if String.eqb mime_type (WORD_DOC cfg) then
    text ← call (docx_to_text w response);
    Returns (Some [mkSection link text])
  else if String.eqb mime_type (PDF cfg) then
    text ← call (read_pdf_file w response);
    Returns (Some [mkSection link text])
  else if String.eqb mime_type (POWERPOINT cfg) then
    text ← call (pptx_to_text w response);
    Returns (Some [mkSection link text])
  else Returns None.

(** *** The body of the outer [try] (lines 55-232) *)
Definition strategies (file : GoogleDriveFileType) (mime_type link : string)
  : outcome (list TextSection) :=
  early ← spreadsheet_branches file mime_type link;
  match early with
  | Some sections => Returns sections
  | None =>
      if in_list mime_type [DOC cfg; PPT cfg; SPREADSHEET cfg] then
        export_extraction file mime_type link
      else if in_list mime_type [PLAIN_TEXT cfg; MARKDOWN cfg] then
        plain_text_extraction file link
      else
        late ← (if in_list mime_type [WORD_DOC cfg; POWERPOINT cfg; PDF cfg]
                then binary_extraction file mime_type link
                else Returns None);
        match late with
        | Some sections => Returns sections
        | None => Raises (ValueError ("Unsupported file type: " +:+ mime_type))
        end
  end.

(** *** [_extract_sections_basic] (lines 43-235) *)
Definition _extract_sections_basic (file : GoogleDriveFileType)
  : outcome (list TextSection) :=
  mime_type ← file_getitem file "mimeType";
  link ← file_getitem file "webViewLink";
  if negb (in_list mime_type (supported_file_types cfg)) then
    Returns [mkSection link (UNSUPPORTED_FILE_TYPE_CONTENT cfg)]
  else
    try_except (strategies file mime_type link)
      (fun _ => Returns [mkSection link (UNSUPPORTED_FILE_TYPE_CONTENT cfg)]).

(** *** [convert_drive_item_to_document] (lines 238-302) *)

(** [file.get("mimeType") == mime] *)
Definition mime_type_is (file : GoogleDriveFileType) (mime : string) : bool :=
  match file_get file "mimeType" with
  | Some mime_type => String.eqb mime_type mime
  | None => false
  end.

(** lines 253-264: [sections] after the Google Docs attempt *)
Definition structured_sections (file : GoogleDriveFileType)
  : outcome (list TextSection) :=
  if mime_type_is file (DOC cfg) then
    try_except
      (file_id ← file_getitem file "id";
       call (get_document_sections w file_id))
      (fun e => file_getitem file "name";; Returns [])
  else Returns [].

(** lines 272-280: the [except HttpError] handler. [None] is the
    [return None] of line 278. *)
Definition http_error_handler (file : GoogleDriveFileType) (info : HttpErrorInfo)
  : outcome (option (list TextSection)) :=
  reason ← (if truthy (error_details info)
            then details ← first_item (error_details info); getitem details "reason"
            else Returns (reason info));
  message ← (if truthy (error_details info)
             then details ← first_item (error_details info); getitem details "message"
             else Returns (Py.reason info));
  if (status_code info =? 403) && in_list reason ERRORS_TO_CONTINUE_ON then
    file_getitem file "name";; Returns None
  else Raises (HttpError info).

(** lines 266-280: [Some sections] is [sections] at line 281 *)
Definition generic_sections (file : GoogleDriveFileType)
    (sections : list TextSection) : outcome (option (list TextSection)) :=
  if negb (truthy sections) then
    try_except
      (sections' ← _extract_sections_basic file; Returns (Some sections'))
      (fun e =>
         match e with
         | HttpError info => http_error_handler file info
         | _ => Raises e
         end)
  else Returns (Some sections).

(** lines 292-294 *)
Definition document_metadata (sections : list TextSection) : gmap string string :=
  if existsb (fun section => negb (String.eqb (text section) "")) sections
  then ∅
  else {[ IGNORE_FOR_QA cfg := "True" ]}.

(** lines 244-296: the body of the function's [try] *)
Definition convert_drive_item_body (file : GoogleDriveFileType)
  : outcome (option Document) :=
  if mime_type_is file (DRIVE_SHORTCUT_TYPE cfg) then Returns None
  else if mime_type_is file (DRIVE_FOLDER_TYPE cfg) then Returns None
  else
    sections ← structured_sections file;
    generic ← generic_sections file sections;
    match generic with
    | None => Returns None
    | Some sections =>
        if negb (truthy sections) then Returns None
        else
          id ← file_getitem file "webViewLink";
          semantic_identifier ← file_getitem file "name";
          modified_time ← file_getitem file "modifiedTime";
          doc_updated_at ← call (fromisoformat_utc w modified_time);
          Returns (Some (mkDocument id sections semantic_identifier
                           doc_updated_at (document_metadata sections)
                           (file_get file "id")))
    end.

(** lines 243-302 *)
Definition convert_drive_item_to_document (file : GoogleDriveFileType)
  : outcome (option Document) :=
  try_except (convert_drive_item_body file)
    (fun e =>
       if negb (CONTINUE_ON_CONNECTOR_FAILURE cfg) then Raises e
       else Returns None).

(** *** [build_slim_document] (lines 305-320) *)
Definition build_slim_document (file : GoogleDriveFileType)
  : outcome (option SlimDocument) :=
  if match file_get file "mimeType" with
     | Some mime_type =>
         in_list mime_type [DRIVE_FOLDER_TYPE cfg; DRIVE_SHORTCUT_TYPE cfg]
     | None => false
     end
  then Returns None
  else
    id ← file_getitem file "webViewLink";
    first_owner ← first_item (default [∅] (file_owners file));
    Returns (Some (mkSlimDocument id
      {| doc_id := file_get file "id";
         drive_id := file_get file "driveId";
         permissions := default [] (file_permissions file);
         permission_ids := default [] (file_permissionIds file);
         name := file_get file "name";
         owner_email := first_owner !! "emailAddress" |})).

End DocConversion.

(** ** Sample configuration, collaborators and descriptors

    Concrete data on which the theorems below are instantiated. *)

(** The MIME strings are those of the Drive API; the other values are
    samples. *)
Definition sample_config : Config :=
  {| DOC := "application/vnd.google-apps.document";
     SPREADSHEET := "application/vnd.google-apps.spreadsheet";
     SPREADSHEET_OPEN_FORMAT :=
       "application/vnd.openxmlformats-officedocument.spreadsheetml.sheet";
     SPREADSHEET_MS_EXCEL := "application/vnd.ms-excel";
     PDF := "application/pdf";
     WORD_DOC :=
       "application/vnd.openxmlformats-officedocument.wordprocessingml.document";
     PPT := "application/vnd.google-apps.presentation";
     POWERPOINT :=
       "application/vnd.openxmlformats-officedocument.presentationml.presentation";
     PLAIN_TEXT := "text/plain";
     MARKDOWN := "text/markdown";
     other_members := [];
     DRIVE_FOLDER_TYPE := "application/vnd.google-apps.folder";
     DRIVE_SHORTCUT_TYPE := "application/vnd.google-apps.shortcut";
     UNSUPPORTED_FILE_TYPE_CONTENT := "This file type is not supported";
     IGNORE_FOR_QA := "ignore_for_qa";
     CONTINUE_ON_CONNECTOR_FAILURE := false |}.

Definition unreachable {A} : reply A := Err (OtherError "ConnectionError").

(** Collaborators given by the answers of the five remote calls; the
    Sheets client can be built, UTF-8 decoding keeps the bytes, a workbook
    file is read as a single worksheet [Sheet1] with one cell holding the
    bytes as text (an empty file is rejected), no extraction service is
    configured, the binary decoders fail and every timestamp parses. *)
Definition sample_world
    (metadata_answer : string → reply Spreadsheet)
    (values_answer : string → string → reply ValueRange)
    (media_answer : string → reply bytes)
    (export_answer : string → string → reply bytes)
    (docs_answer : string → reply (list TextSection)) : World :=
  {| sheets_build := Ok ();
     spreadsheets_get := metadata_answer;
     values_get := values_answer;
     files_get_media := media_answer;
     files_export := export_answer;
     decode_utf8 := λ raw, Ok (String.string_of_list_byte raw);
     load_workbook := λ raw,
       match raw with
       | [] => Err (OtherError "InvalidFileException")
       | _ => Ok (mkWorkbook
                    [mkWorksheet "Sheet1" [[CStr (String.string_of_list_byte raw)]]])
       end;
     get_unstructured_api_key := None;
     unstructured_to_text := λ _ _, unreachable;
     docx_to_text := λ _, unreachable;
     pptx_to_text := λ _, unreachable;
     read_pdf_file := λ _, unreachable;
     get_document_sections := docs_answer;
     fromisoformat_utc := λ _, Ok 1700000000 |}.

(** Nothing answers. *)
Definition offline_world : World :=
  sample_world (λ _, unreachable) (λ _ _, unreachable) (λ _, unreachable)
               (λ _ _, unreachable) (λ _, unreachable).

(** A descriptor with the given string keys and no list-valued key. *)
Definition plain_file (entries : list (string * string)) : GoogleDriveFileType :=
  mkFile (list_to_map entries) None None None.

Definition file_without_mime_type : GoogleDriveFileType :=
  plain_file [("id", "f1"); ("name", "notes");
              ("webViewLink", "https://drive.example/f1")].

Definition file_without_link : GoogleDriveFileType :=
  plain_file [("id", "f2"); ("name", "photo.png"); ("mimeType", "image/png")].

Definition image_file : GoogleDriveFileType :=
  plain_file [("id", "f3"); ("name", "photo.png"); ("mimeType", "image/png");
              ("webViewLink", "https://drive.example/f3");
              ("modifiedTime", "2024-01-01T00:00:00Z")].

Definition pdf_file : GoogleDriveFileType :=
  plain_file [("id", "f4"); ("name", "paper.pdf"); ("mimeType", "application/pdf");
              ("webViewLink", "https://drive.example/f4");
              ("modifiedTime", "2024-01-01T00:00:00Z")].

(** *** A Google Doc whose export is refused *)

Definition export_refused : HttpErrorInfo :=
  mkHttpError 403 "This file cannot be exported by the user."
    [list_to_map [("domain", "global"); ("reason", "cannotExportFile");
                  ("message", "This file cannot be exported by the user.")]].

(** The structured extractor is down and every export is answered with
    HTTP 403, reason [cannotExportFile]. *)
Definition export_refused_world : World :=
  sample_world (λ _, unreachable) (λ _ _, unreachable) (λ _, unreachable)
               (λ _ _, Err (HttpError export_refused)) (λ _, unreachable).

Definition google_doc_file : GoogleDriveFileType :=
  plain_file [("id", "f5"); ("name", "minutes");
              ("mimeType", "application/vnd.google-apps.document");
              ("webViewLink", "https://drive.example/f5");
              ("modifiedTime", "2024-01-01T00:00:00Z")].

(** *** A native spreadsheet while the Sheets API is down *)

Definition sheets_unavailable : HttpErrorInfo :=
  mkHttpError 503 "The service is currently unavailable." [].

(** The metadata call is answered with HTTP 503; the Drive calls work:
    the raw download gives the bytes [x] and every export gives [a,b]. *)
Definition sheets_down_world : World :=
  sample_world (λ _, Err (HttpError sheets_unavailable)) (λ _ _, unreachable)
               (λ _, Ok (String.list_byte_of_string "x"))
               (λ _ _, Ok (String.list_byte_of_string "a,b"))
               (λ _, unreachable).

Definition native_sheet_file : GoogleDriveFileType :=
  plain_file [("id", "f6"); ("name", "budget");
              ("mimeType", "application/vnd.google-apps.spreadsheet");
              ("webViewLink", "https://drive.example/f6");
              ("modifiedTime", "2024-01-01T00:00:00Z")].

(** ** Native spreadsheets sheet by sheet

    The vocabulary in which the per-sheet behaviour is stated: what the
    values request of a sheet is answered with, and what the section of a
    sheet looks like. *)

(** The answer to the values request the code issues for [sheet]. [None]:
    the declared column count is negative and line 80 never exits. *)
Definition sheet_fetch (w : World) (file_id : string) (sheet : SheetProperties)
  : option (reply ValueRange) :=
  end_column ← column_letters (column_count sheet);
  Some (values_get w file_id (range_name sheet end_column)).

(** The fetch succeeds and its values are not empty. *)
Definition fetch_has_values (w : World) (file_id : string) (sheet : SheetProperties)
  : bool :=
  match sheet_fetch w file_id sheet with
  | Some (Ok answer) => truthy (default [] (values answer))
  | _ => false
  end.

(** The fetch succeeds or raises a transport error ([HttpError]). *)
Definition fetch_succeeds_or_http_error (w : World) (file_id : string)
    (sheet : SheetProperties) : bool :=
  match sheet_fetch w file_id sheet with
  | Some (Ok _) => true
  | Some (Err (HttpError _)) => true
  | _ => false
  end.

(** [section] is the section of [sheet]: its text starts with the header
    line of the sheet and its link is the file's link with the sheet anchor. *)
Definition is_section_of_sheet (view_link : string) (sheet : SheetProperties)
    (section : TextSection) : Prop :=
  String.prefix ("Sheet: " +:+ title sheet +:+ newline) (text section) = true
  ∧ link section = view_link +:+ "#gid=" +:+ pretty (sheetId sheet).

(** *** A spreadsheet with three sheets *)

Definition quarterly_sheets : Spreadsheet :=
  mkSpreadsheet
    [mkSheet "Q1" 0 None;
     mkSheet "Q2" 7 (Some (mkGrid (Some 20) (Some 3)));
     mkSheet "Q3" 9 (Some (mkGrid None (Some 28)))].

Definition sheet_quota_exceeded : HttpErrorInfo :=
  mkHttpError 429 "Quota exceeded" [].

(** Sheet [Q1] has one row, the fetch of [Q2] is answered by [second] and
    sheet [Q3] has no values; every export gives [a,b]. *)
Definition quarterly_world (second : reply ValueRange) : World :=
  sample_world
    (λ _, Ok quarterly_sheets)
    (λ _ range,
       if String.eqb range "'Q1'!A1:Z1000"
       then Ok (mkValueRange (Some [[CStr "item"; CInt 12]]))
       else if String.eqb range "'Q2'!A1:C20" then second
       else if String.eqb range "'Q3'!A1:AB1000" then Ok (mkValueRange None)
       else unreachable)
    (λ _, unreachable)
    (λ _ _, Ok (String.list_byte_of_string "a,b"))
    (λ _, unreachable).

(** *** A spreadsheet whose only sheet is blank *)

Definition blank_sheet_world : World :=
  sample_world (λ _, Ok (mkSpreadsheet [mkSheet "Sheet1" 0 None]))
               (λ _ _, Ok (mkValueRange None))
               (λ _, unreachable) (λ _ _, unreachable) (λ _, unreachable).

(** *** Descriptors with and without owners *)

Definition empty_owners_file : GoogleDriveFileType :=
  mkFile (list_to_map [("id", "f7"); ("name", "plan"); ("mimeType", "text/plain");
                       ("webViewLink", "https://drive.example/f7")])
         (Some []) None None.

Definition owned_file : GoogleDriveFileType :=
  mkFile (list_to_map [("id", "f8"); ("name", "plan"); ("mimeType", "text/plain");
                       ("webViewLink", "https://drive.example/f8")])
         (Some [list_to_map [("displayName", "Ada");
                             ("emailAddress", "ada@example.com")]])
         None None.

(** ** The configuration with the failure flag set to [flag] *)
Definition with_continue_on_failure (cfg : Config) (flag : bool) : Config :=
  {| DOC := DOC cfg;
     SPREADSHEET := SPREADSHEET cfg;
     SPREADSHEET_OPEN_FORMAT := SPREADSHEET_OPEN_FORMAT cfg;
     SPREADSHEET_MS_EXCEL := SPREADSHEET_MS_EXCEL cfg;
     PDF := PDF cfg;
     WORD_DOC := WORD_DOC cfg;
     PPT := PPT cfg;
     POWERPOINT := POWERPOINT cfg;
     PLAIN_TEXT := PLAIN_TEXT cfg;
     MARKDOWN := MARKDOWN cfg;
     other_members := other_members cfg;
     DRIVE_FOLDER_TYPE := DRIVE_FOLDER_TYPE cfg;
     DRIVE_SHORTCUT_TYPE := DRIVE_SHORTCUT_TYPE cfg;
     UNSUPPORTED_FILE_TYPE_CONTENT := UNSUPPORTED_FILE_TYPE_CONTENT cfg;
     IGNORE_FOR_QA := IGNORE_FOR_QA cfg;
     CONTINUE_ON_CONNECTOR_FAILURE := flag |}.

(** ** [shared_configs/contextvars.py]

    [MULTI_TENANT] and [POSTGRES_DEFAULT_SCHEMA] come from
    [shared_configs/configs.py]. *)
Record TenantConfig := mkTenantConfig {
  MULTI_TENANT : bool;
  POSTGRES_DEFAULT_SCHEMA : string
}.

(** A [contextvars.ContextVar]: the default it was created with and the
    value set in the current context, if one was set. *)
Record ContextVar (A : Type) := mkContextVar {
  var_default : A;
  var_current : option A
}.
Arguments mkContextVar {A} _ _.
Arguments var_default {A} _.
Arguments var_current {A} _.

(** [var.get()] *)
Definition contextvar_get {A} (var : ContextVar A) : A :=
  default (var_default var) (var_current var).

(** lines 8-12: the variable holds a [str | None]; [current] is what the
    running context has set. *)
Definition CURRENT_TENANT_ID_CONTEXTVAR (tc : TenantConfig)
    (current : option (option string)) : ContextVar (option string) :=
  mkContextVar
    (if MULTI_TENANT tc then None else Some (POSTGRES_DEFAULT_SCHEMA tc))
    current.

(** lines 18-24 *)
Definition get_current_tenant_id (tc : TenantConfig)
    (current : option (option string)) : outcome string :=
  let tenant_id := contextvar_get (CURRENT_TENANT_ID_CONTEXTVAR tc current) in
  match tenant_id with
  | None =>
      if negb (MULTI_TENANT tc) then Returns (POSTGRES_DEFAULT_SCHEMA tc)
      else Raises (OtherError "RuntimeError")
  | Some tenant => Returns tenant
  end.

(** ** Vocabulary of the further properties *)

(** One row of a sheet as line 98 renders it. *)
Definition row_line (row : list cell) : string :=
  String.concat tab (map py_str row) +:+ newline.

(** The strings of a list one after the other. *)
Fixpoint concat_strings (parts : list string) : string :=
  match parts with
  | [] => ""
  | part :: rest => part +:+ concat_strings rest
  end.

(** *** Further sample data *)

Definition excel_file : GoogleDriveFileType :=
  plain_file [("id", "f9"); ("name", "ledger.xls");
              ("mimeType", "application/vnd.ms-excel");
              ("webViewLink", "https://drive.example/f9");
              ("modifiedTime", "2024-01-01T00:00:00Z")].

(** A configuration whose enumeration has one member more than the ten
    the module names. *)
Definition extended_config : Config :=
  {| DOC := DOC sample_config;
     SPREADSHEET := SPREADSHEET sample_config;
     SPREADSHEET_OPEN_FORMAT := SPREADSHEET_OPEN_FORMAT sample_config;
     SPREADSHEET_MS_EXCEL := SPREADSHEET_MS_EXCEL sample_config;
     PDF := PDF sample_config;
     WORD_DOC := WORD_DOC sample_config;
     PPT := PPT sample_config;
     POWERPOINT := POWERPOINT sample_config;
     PLAIN_TEXT := PLAIN_TEXT sample_config;
     MARKDOWN := MARKDOWN sample_config;
     other_members := ["application/epub+zip"];
     DRIVE_FOLDER_TYPE := DRIVE_FOLDER_TYPE sample_config;
     DRIVE_SHORTCUT_TYPE := DRIVE_SHORTCUT_TYPE sample_config;
     UNSUPPORTED_FILE_TYPE_CONTENT := UNSUPPORTED_FILE_TYPE_CONTENT sample_config;
     IGNORE_FOR_QA := IGNORE_FOR_QA sample_config;
     CONTINUE_ON_CONNECTOR_FAILURE := false |}.

Definition epub_file : GoogleDriveFileType :=
  plain_file [("id", "f10"); ("name", "novel.epub");
              ("mimeType", "application/epub+zip");
              ("webViewLink", "https://drive.example/f10");
              ("modifiedTime", "2024-01-01T00:00:00Z")].

(** An extraction service is configured and answers with the name it was
    given; the raw download gives the bytes [x]; the decoders of the
    binary formats would answer [decoded]. *)
Definition unstructured_world : World :=
  {| sheets_build := Ok ();
     spreadsheets_get := λ _, unreachable;
     values_get := λ _ _, unreachable;
     files_get_media := λ _, Ok (String.list_byte_of_string "x");
     files_export := λ _ _, unreachable;
     decode_utf8 := λ raw, Ok (String.string_of_list_byte raw);
     load_workbook := λ _, unreachable;
     get_unstructured_api_key := Some "key";
     unstructured_to_text := λ _ file_name, Ok ("text of " +:+ file_name);
     docx_to_text := λ _, Ok "decoded";
     pptx_to_text := λ _, Ok "decoded";
     read_pdf_file := λ _, Ok "decoded";
     get_document_sections := λ _, unreachable;
     fromisoformat_utc := λ _, Ok 1700000000 |}.

Definition folder_file : GoogleDriveFileType :=
  plain_file [("id", "f11"); ("name", "Projects");
              ("mimeType", "application/vnd.google-apps.folder")].

(** The structured extractor answers with two sections; nothing else
    answers. *)
Definition docs_world : World :=
  sample_world (λ _, unreachable) (λ _ _, unreachable) (λ _, unreachable)
               (λ _ _, unreachable)
               (λ _, Ok [mkSection "https://drive.example/f5#h1" "Agenda";
                         mkSection "https://drive.example/f5#h2" ""]).

(** The structured extractor fails and the export gives [a,b]. *)
Definition docs_down_world : World :=
  sample_world (λ _, unreachable) (λ _ _, unreachable) (λ _, unreachable)
               (λ _ _, Ok (String.list_byte_of_string "a,b"))
               (λ _, unreachable).

Definition empty_owners_file_without_link : GoogleDriveFileType :=
  mkFile (list_to_map [("id", "f12"); ("name", "plan"); ("mimeType", "text/plain")])
         (Some []) None None.

(** ** The sections of a native spreadsheet, written out *)

(** The section the answer to a sheet's values request gives rise to:
    none for an exception or for values that are absent or empty;
    otherwise the file's link with the anchor of the sheet, and the header
    line followed by the lines of the rows. *)
Definition section_of_answer (view_link : string) (sheet : SheetProperties)
    (answer : reply ValueRange) : option TextSection :=
  match answer with
  | Ok range =>
      match default [] (values range) with
      | [] => None
      | rows =>
          Some (mkSection (view_link +:+ "#gid=" +:+ pretty (sheetId sheet))
                  (("Sheet: " +:+ title sheet +:+ newline)
                   +:+ concat_strings (map row_line rows)))
      end
  | Err _ => None
  end.

(** The answer is a value range or a transport error. *)
Definition is_answer_or_http_error (answer : reply ValueRange) : bool :=
  match answer with
  | Ok _ => true
  | Err (HttpError _) => true
  | Err _ => false
  end.

(** The sheet declares no extent: no [gridProperties], or one without
    [rowCount] and [columnCount]. *)
Definition undeclared_extent (sheet : SheetProperties) : bool :=
  match gridProperties sheet with
  | None => true
  | Some grid_properties =>
      match rowCount grid_properties, columnCount grid_properties with
      | None, None => true
      | _, _ => false
      end
  end.

(** Two sheets without declared extent: [Data] has one row, the fetch of
    [Notes] is refused for quota. *)
Definition default_extent_world : World :=
  sample_world
    (λ _, Ok (mkSpreadsheet [mkSheet "Data" 3 None;
                             mkSheet "Notes" 4 (Some (mkGrid None None))]))
    (λ _ range,
       if String.eqb range "'Data'!A1:Z1000"
       then Ok (mkValueRange (Some [[CStr "a"; CBool true]]))
       else Err (HttpError sheet_quota_exceeded))
    (λ _, unreachable) (λ _ _, unreachable) (λ _, unreachable).

(** The section of a sheet: that of the answer to its values request. *)
Definition sheet_section (w : World) (file_id view_link : string)
    (sheet : SheetProperties) : option TextSection :=
  answer ← sheet_fetch w file_id sheet;
  section_of_answer view_link sheet answer.

(** * Properties *)

(** ** Column letters *)

Section ColumnLetters.

Lemma string_app_cons (c : Ascii.ascii) (s1 s2 : string) :
  String c s1 +:+ s2 = String c (s1 +:+ s2).
Proof. reflexivity. Qed.

Lemma string_app_assoc (s1 s2 s3 : string) :
  (s1 +:+ s2) +:+ s3 = s1 +:+ (s2 +:+ s3).
Proof.
  induction s1 as [|c s1 IH]; [reflexivity|].
  rewrite !string_app_cons, IH. reflexivity.
Qed.

Lemma column_step_smaller (n : Z) : 0 < n → 0 ≤ (n - 1) / 26 < n.
Proof.
  intros Hn. split.
  - apply Z.div_pos; lia.
  - assert ((n - 1) / 26 ≤ n - 1); [|lia].
    apply Z.div_le_upper_bound; lia.
Qed.

(** The accumulator only collects letters in front of what it held. *)
Lemma column_letter_loop_acc (fuel : nat) :
  ∀ (n : Z) (acc : string),
    column_letter_loop fuel n acc
    = (λ s, s +:+ acc) <$> column_letter_loop fuel n "".
Proof.
  induction fuel as [|fuel IH]; intros n acc; simpl.
  - destruct (n =? 0); reflexivity.
  - destruct (n =? 0); [reflexivity|].
    rewrite IH. rewrite (IH _ (String _ "")).
    destruct (column_letter_loop fuel ((n - 1) / 26) "") as [s|]; simpl; [|reflexivity].
    f_equal. rewrite string_app_assoc. reflexivity.
Qed.

(** More fuel does not change a result. *)
Lemma column_letter_loop_mono (fuel : nat) :
  ∀ (n : Z) (acc s : string),
    column_letter_loop fuel n acc = Some s →
    column_letter_loop (S fuel) n acc = Some s.
Proof.
  induction fuel as [|fuel IH]; intros n acc s.
  - simpl. destruct (n =? 0); [auto|discriminate].
  - intros H. change (column_letter_loop (S (S fuel)) n acc) with
      (if n =? 0 then Some acc
       else column_letter_loop (S fuel) ((n - 1) / 26)
              (String (chr (65 + (n - 1) mod 26)) acc)).
    simpl in H. destruct (n =? 0); [exact H|]. apply IH, H.
Qed.

Lemma column_letter_loop_more (fuel fuel' : nat) (n : Z) (acc s : string) :
  (fuel ≤ fuel')%nat →
  column_letter_loop fuel n acc = Some s →
  column_letter_loop fuel' n acc = Some s.
Proof.
  induction 1 as [|fuel' _ IH]; [auto|].
  intros H. apply column_letter_loop_mono, IH, H.
Qed.

(** The loop exits within [column_count] iterations on a count that is
    not negative. *)
Lemma column_letter_loop_enough (fuel : nat) :
  ∀ (n : Z) (acc : string),
    0 ≤ n → (Z.to_nat n ≤ fuel)%nat →
    is_Some (column_letter_loop fuel n acc).
Proof.
  induction fuel as [|fuel IH]; intros n acc Hn Hfuel; simpl.
  - replace n with 0 by lia. simpl. eauto.
  - destruct (Z.eqb_spec n 0); [eauto|].
    pose proof (column_step_smaller n ltac:(lia)).
    apply IH; lia.
Qed.

(** On a negative count the loop never exits: the count stays negative. *)
Lemma column_letter_loop_negative (fuel : nat) :
  ∀ (n : Z) (acc : string), n < 0 → column_letter_loop fuel n acc = None.
Proof.
  induction fuel as [|fuel IH]; intros n acc Hn; simpl.
  - destruct (Z.eqb_spec n 0); [lia|reflexivity].
  - destruct (Z.eqb_spec n 0); [lia|].
    apply IH.
    assert ((n - 1) / 26 ≤ -1); [|lia].
    apply Z.lt_succ_r, Z.div_lt_upper_bound; lia.
Qed.

Lemma column_letters_total (n : Z) : 0 ≤ n → is_Some (column_letters n).
Proof. intros Hn. apply column_letter_loop_enough; [exact Hn|lia]. Qed.

Lemma column_letters_zero : column_letters 0 = Some "".
Proof. reflexivity. Qed.

(** One turn of the loop, on the result. *)
Lemma column_letters_step (n : Z) :
  0 < n →
  column_letters n
  = (λ s, s +:+ String (chr (65 + (n - 1) mod 26)) "")
      <$> column_letters ((n - 1) / 26).
Proof.
  intros Hn. pose proof (column_step_smaller n Hn) as Hq.
  unfold column_letters at 1.
  destruct (Z.to_nat n) as [|fuel] eqn:Hfuel; [lia|].
  simpl. destruct (Z.eqb_spec n 0); [lia|].
  rewrite column_letter_loop_acc.
  destruct (column_letters_total ((n - 1) / 26)) as [s Hs]; [lia|].
  rewrite Hs.
  rewrite (column_letter_loop_more (Z.to_nat ((n - 1) / 26)) fuel _ _ s);
    [reflexivity|lia|exact Hs].
Qed.

Lemma column_value_from_snoc (label : string) :
  ∀ (acc : Z) (c : Ascii.ascii),
    column_value_from acc (label +:+ String c "")
    = 26 * column_value_from acc label + (Z.of_N (Ascii.N_of_ascii c) - 64).
Proof.
  induction label as [|c' label IH]; intros acc c; [reflexivity|].
  rewrite string_app_cons. simpl. apply IH.
Qed.

Lemma all_upper_letters_snoc (label : string) (c : Ascii.ascii) :
  all_upper_letters (label +:+ String c "")
  = all_upper_letters label && is_upper_letter c.
Proof.
  induction label as [|c' label IH].
  - simpl. rewrite andb_true_r. reflexivity.
  - rewrite string_app_cons. simpl. rewrite IH, andb_assoc. reflexivity.
Qed.

Lemma chr_letter_code (r : Z) :
  0 ≤ r < 26 → Z.of_N (Ascii.N_of_ascii (chr (65 + r))) = 65 + r.
Proof.
  intros Hr. unfold chr.
  rewrite Ascii.N_ascii_embedding; lia.
Qed.

(** The label produced for [n] is made of capital letters and its value
    in bijective base 26 is [n]. *)
Lemma column_letters_value (n : Z) :
  0 ≤ n →
  ∃ label, column_letters n = Some label
           ∧ column_value label = n
           ∧ all_upper_letters label = true.
Proof.
  induction n as [n IH] using (well_founded_induction (Z.lt_wf 0)).
  intros Hn.
  destruct (Z.eq_dec n 0) as [->|Hne].
  - exists "". repeat split; reflexivity.
  - pose proof (column_step_smaller n ltac:(lia)) as Hq.
    destruct (IH ((n - 1) / 26)) as (label & Hlabel & Hvalue & Hupper); [lia..|].
    pose proof (Z.mod_pos_bound (n - 1) 26 ltac:(lia)) as Hr.
    exists (label +:+ String (chr (65 + (n - 1) mod 26)) "").
    rewrite column_letters_step, Hlabel by lia.
    split; [reflexivity|]. split.
    + unfold column_value in *. rewrite column_value_from_snoc, Hvalue.
      rewrite chr_letter_code by lia.
      pose proof (Z.div_mod (n - 1) 26 ltac:(lia)). lia.
    + rewrite all_upper_letters_snoc, Hupper. unfold is_upper_letter.
      rewrite chr_letter_code by lia. simpl.
      apply andb_true_iff; split; apply Z.leb_le; lia.
Qed.

End ColumnLetters.

(** C7: the conversion of a column count to letters is the bijective
    base-26 one. It maps 1, 26, 27, 52, 702, 703 to A, Z, AA, AZ, ZZ, AAA;
    zero gives the empty label; for a positive [n] the label is the label
    of [(n-1) div 26] followed by the letter of index [(n-1) mod 26], which
    is what prepending letters in the loop amounts to; and every label is
    made of letters [A]-[Z] whose bijective base-26 value is [n] again. *)
Theorem column_letters_bijective_base26 :
  (column_letters 1 = Some "A" ∧ column_letters 26 = Some "Z"
   ∧ column_letters 27 = Some "AA" ∧ column_letters 52 = Some "AZ"
   ∧ column_letters 702 = Some "ZZ" ∧ column_letters 703 = Some "AAA")
  ∧ column_letters 0 = Some ""
  ∧ (∀ n, 0 < n →
       ∃ front, column_letters ((n - 1) / 26) = Some front
                ∧ column_letters n
                  = Some (front +:+ String (chr (65 + (n - 1) mod 26)) ""))
  ∧ (∀ n, 0 ≤ n →
       ∃ label, column_letters n = Some label
                ∧ column_value label = n
                ∧ all_upper_letters label = true).
Proof.
  split; [repeat split; vm_compute; reflexivity|].
  split; [reflexivity|]. split.
  - intros n Hn.
    destruct (column_letters_total ((n - 1) / 26)) as [front Hfront].
    { apply column_step_smaller, Hn. }
    exists front. split; [exact Hfront|].
    rewrite column_letters_step, Hfront by exact Hn. reflexivity.
  - apply column_letters_value.
Qed.

Lemma column_letters_bijective_base26_witness :
  (∃ front, column_letters ((28 - 1) / 26) = Some front
            ∧ column_letters 28
              = Some (front +:+ String (chr (65 + (28 - 1) mod 26)) ""))
  ∧ (∃ label, column_letters 28 = Some label
              ∧ column_value label = 28
              ∧ all_upper_letters label = true).
Proof.
  destruct column_letters_bijective_base26 as (_ & _ & Hstep & Hvalue).
  split; [apply (Hstep 28); lia | apply (Hvalue 28); lia].
Defined.

(** ** The section extractor *)

Section ExtractorFacts.

Variable cfg : Config.
Variable w : World.

Lemma in_list_elem_of (x : string) (l : list string) :
  in_list x l = true ↔ x ∈ l.
Proof.
  unfold in_list. rewrite existsb_exists. split.
  - intros (y & Hy & Heq). apply String.eqb_eq in Heq as ->.
    apply list_elem_of_In, Hy.
  - intros Hx. exists x. split; [apply list_elem_of_In, Hx|apply String.eqb_refl].
Qed.

Lemma file_getitem_present (file : GoogleDriveFileType) (k v : string) :
  file_get file k = Some v → file_getitem file k = Returns v.
Proof. unfold file_get, file_getitem, getitem. intros ->. reflexivity. Qed.

Lemma file_getitem_absent (file : GoogleDriveFileType) (k : string) :
  file_get file k = None → file_getitem file k = Raises (KeyError k).
Proof. unfold file_get, file_getitem, getitem. intros ->. reflexivity. Qed.

(** With both keys present the function is its dispatch on the MIME type. *)
Lemma extract_with_keys (file : GoogleDriveFileType) (mime_type view_link : string) :
  file_get file "mimeType" = Some mime_type →
  file_get file "webViewLink" = Some view_link →
  _extract_sections_basic cfg w file
  = if negb (in_list mime_type (supported_file_types cfg))
    then Returns [mkSection view_link (UNSUPPORTED_FILE_TYPE_CONTENT cfg)]
    else try_except (strategies cfg w file mime_type view_link)
           (λ _, Returns [mkSection view_link (UNSUPPORTED_FILE_TYPE_CONTENT cfg)]).
Proof.
  intros Hmime Hlink. unfold _extract_sections_basic.
  rewrite (file_getitem_present _ _ _ Hmime), (file_getitem_present _ _ _ Hlink).
  reflexivity.
Qed.

(** The only exceptions that leave the function are the two [KeyError]s
    of lines 46 and 47. *)
Lemma extract_raises_only_key_errors (file : GoogleDriveFileType) (e : exn) :
  _extract_sections_basic cfg w file = Raises e →
  (file_get file "mimeType" = None ∧ e = KeyError "mimeType")
  ∨ (file_get file "webViewLink" = None ∧ e = KeyError "webViewLink").
Proof.
  destruct (file_get file "mimeType") as [mime_type|] eqn:Hmime.
  - destruct (file_get file "webViewLink") as [view_link|] eqn:Hlink.
    + rewrite (extract_with_keys _ _ _ Hmime Hlink).
      destruct (negb _); [discriminate|].
      destruct (strategies cfg w file mime_type view_link); discriminate.
    + unfold _extract_sections_basic.
      rewrite (file_getitem_present _ _ _ Hmime), (file_getitem_absent _ _ Hlink).
      simpl. intros [= <-]. right. split; reflexivity.
  - unfold _extract_sections_basic. rewrite (file_getitem_absent _ _ Hmime).
    simpl. intros [= <-]. left. split; reflexivity.
Qed.

End ExtractorFacts.

(** C8: a file whose declared MIME type is outside the supported set gets
    exactly one section, made of the file's view link and the fixed
    unsupported-file-type text. *)
Theorem unsupported_mime_type_single_sentinel
    (cfg : Config) (w : World) (file : GoogleDriveFileType)
    (mime_type view_link : string) :
  file_get file "mimeType" = Some mime_type →
  file_get file "webViewLink" = Some view_link →
  mime_type ∉ supported_file_types cfg →
  _extract_sections_basic cfg w file
  = Returns [mkSection view_link (UNSUPPORTED_FILE_TYPE_CONTENT cfg)].
Proof.
  intros Hmime Hlink Hunsupported.
  rewrite (extract_with_keys _ _ _ _ _ Hmime Hlink).
  destruct (in_list mime_type (supported_file_types cfg)) eqn:Hin; [|reflexivity].
  apply in_list_elem_of in Hin. contradiction.
Qed.

Lemma unsupported_mime_type_single_sentinel_witness :
  _extract_sections_basic sample_config offline_world image_file
  = Returns [mkSection "https://drive.example/f3" "This file type is not supported"].
Proof.
  apply (unsupported_mime_type_single_sentinel
           sample_config offline_world image_file "image/png").
  - reflexivity.
  - reflexivity.
  - intros Hin. apply in_list_elem_of in Hin. vm_compute in Hin. discriminate.
Defined.

(** C1, as the code has it: on a descriptor that carries a MIME type and a
    view link the extractor raises nothing, and an exception raised by the
    extraction strategies becomes the single sentinel section with the
    file's view link. *)
Theorem extractor_contains_strategy_exceptions
    (cfg : Config) (w : World) (file : GoogleDriveFileType)
    (mime_type view_link : string) :
  file_get file "mimeType" = Some mime_type →
  file_get file "webViewLink" = Some view_link →
  (∀ e, _extract_sections_basic cfg w file ≠ Raises e)
  ∧ (∀ e, strategies cfg w file mime_type view_link = Raises e →
          _extract_sections_basic cfg w file
          = Returns [mkSection view_link (UNSUPPORTED_FILE_TYPE_CONTENT cfg)]).
Proof.
  intros Hmime Hlink. split.
  - intros e He.
    destruct (extract_raises_only_key_errors _ _ _ _ He) as [[H _]|[H _]];
      congruence.
  - intros e He. rewrite (extract_with_keys _ _ _ _ _ Hmime Hlink), He.
    destruct (negb _); reflexivity.
Qed.

Lemma extractor_contains_strategy_exceptions_witness :
  strategies sample_config offline_world pdf_file
    "application/pdf" "https://drive.example/f4"
  = Raises (OtherError "ConnectionError")
  ∧ (∀ e, _extract_sections_basic sample_config offline_world pdf_file ≠ Raises e)
  ∧ _extract_sections_basic sample_config offline_world pdf_file
    = Returns [mkSection "https://drive.example/f4" "This file type is not supported"].
Proof.
  assert (Hraise : strategies sample_config offline_world pdf_file
                     "application/pdf" "https://drive.example/f4"
                   = Raises (OtherError "ConnectionError")) by reflexivity.
  destruct (extractor_contains_strategy_exceptions
              sample_config offline_world pdf_file
              "application/pdf" "https://drive.example/f4"
              eq_refl eq_refl) as [Hnever Hcaught].
  split; [exact Hraise|]. split; [exact Hnever|].
  exact (Hcaught _ Hraise).
Defined.

(** C1 as stated fails: the two reads of lines 46-47 are outside the
    [try], so a descriptor without ["mimeType"], or without
    ["webViewLink"], makes the extractor raise [KeyError]. *)
Lemma extractor_raises_on_missing_key :
  _extract_sections_basic sample_config offline_world file_without_mime_type
  = Raises (KeyError "mimeType")
  ∧ _extract_sections_basic sample_config offline_world file_without_link
    = Raises (KeyError "webViewLink").
Proof. repeat split; reflexivity. Qed.

(** ** The document assembler and benign transport errors *)

(** No [HttpError] leaves the extractor, so the handler of lines 271-280
    never runs. *)
Lemma extractor_never_raises_http_error
    (cfg : Config) (w : World) (file : GoogleDriveFileType) (info : HttpErrorInfo) :
  _extract_sections_basic cfg w file ≠ Raises (HttpError info).
Proof.
  intros He.
  destruct (extract_raises_only_key_errors _ _ _ _ He) as [[_ H]|[_ H]];
    discriminate.
Qed.

(** C2, evaluated: the export of a Google Doc is refused with HTTP 403 and
    reason [cannotExportFile]. The handler of lines 271-280 would answer
    this error with [None], but the extractor has already turned it into
    the sentinel section, and the assembler returns a document. *)
Theorem refused_export_is_indexed_with_sentinel :
  files_export export_refused_world "f5" "text/plain"
  = Err (HttpError export_refused)
  ∧ http_error_handler google_doc_file export_refused = Returns None
  ∧ convert_drive_item_to_document sample_config export_refused_world google_doc_file
    = Returns (Some
        {| id := "https://drive.example/f5";
           sections := [mkSection "https://drive.example/f5"
                                  "This file type is not supported"];
           semantic_identifier := "minutes";
           doc_updated_at := 1700000000;
           metadata := ∅;
           additional_info := Some "f5" |}).
Proof. repeat split; reflexivity. Qed.

(** ** Native spreadsheets: failure of the Sheets API as a whole *)

Section SpreadsheetFallback.

Variable cfg : Config.
Variable w : World.

Lemma spreadsheet_is_supported :
  in_list (SPREADSHEET cfg) (supported_file_types cfg) = true.
Proof.
  apply in_list_elem_of. unfold supported_file_types.
  apply elem_of_app. left. set_solver.
Qed.

Lemma spreadsheet_is_exportable :
  in_list (SPREADSHEET cfg) [DOC cfg; PPT cfg; SPREADSHEET cfg] = true.
Proof. apply in_list_elem_of. set_solver. Qed.

(** The export strategy returns one section or raises. *)
Lemma export_extraction_cases (file : GoogleDriveFileType) (mime_type view_link : string) :
  (∃ text, export_extraction cfg w file mime_type view_link
           = Returns [mkSection view_link text])
  ∨ (∃ e, export_extraction cfg w file mime_type view_link = Raises e).
Proof.
  unfold export_extraction, file_getitem, getitem.
  destruct (str_fields file !! "id") as [file_id|]; simpl; [|eauto].
  destruct (files_export w file_id _) as [exported|e]; simpl; [|eauto].
  destruct (decode_utf8 w exported) as [text|e]; simpl; eauto.
Qed.

(** When the native branch raises and the handler can log the file's
    name, control reaches the export strategy of lines 164-180. *)
Lemma strategies_after_sheets_failure
    (file : GoogleDriveFileType) (view_link file_name : string) (e : exn) :
  file_get file "name" = Some file_name →
  sheets_extraction w file view_link = Raises e →
  strategies cfg w file (SPREADSHEET cfg) view_link
  = export_extraction cfg w file (SPREADSHEET cfg) view_link.
Proof.
  intros Hname Hfail. unfold strategies, spreadsheet_branches.
  rewrite String.eqb_refl, Hfail. simpl.
  rewrite (file_getitem_present _ _ _ Hname). simpl.
  rewrite spreadsheet_is_exportable. reflexivity.
Qed.

End SpreadsheetFallback.

(** C3, as the code has it: when the native Sheets branch of a native
    spreadsheet fails as a whole, extraction still returns exactly one
    section, so it neither raises nor returns an empty result. If the
    descriptor has a name, the result is that of the export strategy
    (server-side export to [text/csv], lines 164-180) guarded by the outer
    handler: the exported text under the file's link when export and
    decoding succeed, the sentinel section otherwise. *)
Theorem sheets_failure_falls_back_to_csv_export
    (cfg : Config) (w : World) (file : GoogleDriveFileType)
    (view_link : string) (e : exn) :
  file_get file "mimeType" = Some (SPREADSHEET cfg) →
  file_get file "webViewLink" = Some view_link →
  sheets_extraction w file view_link = Raises e →
  (∃ section, _extract_sections_basic cfg w file = Returns [section])
  ∧ (∀ file_name,
       file_get file "name" = Some file_name →
       _extract_sections_basic cfg w file
       = try_except (export_extraction cfg w file (SPREADSHEET cfg) view_link)
           (λ _, Returns [mkSection view_link (UNSUPPORTED_FILE_TYPE_CONTENT cfg)]))
  ∧ (∀ file_name file_id exported csv,
       file_get file "name" = Some file_name →
       file_get file "id" = Some file_id →
       files_export w file_id "text/csv" = Ok exported →
       decode_utf8 w exported = Ok csv →
       _extract_sections_basic cfg w file = Returns [mkSection view_link csv]).
Proof.
  intros Hmime Hlink Hfail.
  pose proof (extract_with_keys cfg w _ _ _ Hmime Hlink) as Hextract.
  rewrite spreadsheet_is_supported in Hextract. simpl in Hextract.
  assert (Hnamed : ∀ file_name,
             file_get file "name" = Some file_name →
             _extract_sections_basic cfg w file
             = try_except (export_extraction cfg w file (SPREADSHEET cfg) view_link)
                 (λ _, Returns [mkSection view_link (UNSUPPORTED_FILE_TYPE_CONTENT cfg)])).
  { intros file_name Hname.
    rewrite Hextract, (strategies_after_sheets_failure _ _ _ _ _ _ Hname Hfail).
    reflexivity. }
  split; [|split].
  - destruct (file_get file "name") as [file_name|] eqn:Hname.
    + rewrite (Hnamed _ eq_refl).
      destruct (export_extraction_cases cfg w file (SPREADSHEET cfg) view_link)
        as [[text ->]|[e' ->]]; simpl; eauto.
    + rewrite Hextract. unfold strategies, spreadsheet_branches.
      rewrite String.eqb_refl, Hfail. simpl.
      rewrite (file_getitem_absent _ _ Hname). simpl. eauto.
  - exact Hnamed.
  - intros file_name file_id exported csv Hname Hid Hexport Hdecode.
    rewrite (Hnamed _ Hname). unfold export_extraction.
    rewrite (file_getitem_present _ _ _ Hid), String.eqb_refl. simpl.
    rewrite Hexport. simpl. rewrite Hdecode. reflexivity.
Qed.

Lemma sheets_failure_falls_back_to_csv_export_witness :
  _extract_sections_basic sample_config sheets_down_world native_sheet_file
  = Returns [mkSection "https://drive.example/f6" "a,b"].
Proof.
  destruct (sheets_failure_falls_back_to_csv_export
              sample_config sheets_down_world native_sheet_file
              "https://drive.example/f6" (HttpError sheets_unavailable)
              eq_refl eq_refl eq_refl) as (_ & _ & Hcsv).
  apply (Hcsv "budget" "f6" (String.list_byte_of_string "a,b") "a,b");
    reflexivity.
Defined.

(** C3 as stated fails: the Sheets metadata call raises, the raw bytes of
    the file are a readable workbook, and yet the result is the CSV export,
    not what the workbook strategy (lines 123-152) gives on those bytes. *)
Lemma sheets_failure_does_not_reach_workbook_strategy :
  sheets_extraction sheets_down_world native_sheet_file "https://drive.example/f6"
  = Raises (HttpError sheets_unavailable)
  ∧ excel_extraction sheets_down_world native_sheet_file "https://drive.example/f6"
    = Returns [mkSection "https://drive.example/f6"
                 ("Sheet: Sheet1" +:+ newline +:+ newline +:+ "x")]
  ∧ _extract_sections_basic sample_config sheets_down_world native_sheet_file
    = Returns [mkSection "https://drive.example/f6" "a,b"].
Proof. repeat split; reflexivity. Qed.

(** ** Native spreadsheets: one section per sheet with values *)

Section SheetsLoop.

Variable w : World.
Variable file : GoogleDriveFileType.
Variables view_link file_id : string.
Hypothesis Hid : file_get file "id" = Some file_id.

Lemma prefix_refl (p : string) : String.prefix p p = true.
Proof.
  induction p as [|c p IH]; simpl; [reflexivity|].
  destruct (Ascii.ascii_dec c c); [exact IH|contradiction].
Qed.

Lemma prefix_app (p : string) :
  ∀ s t, String.prefix p s = true → String.prefix p (s +:+ t) = true.
Proof.
  induction p as [|c p IH]; intros s t.
  - intros _. destruct (s +:+ t); reflexivity.
  - destruct s as [|c' s]; [discriminate|].
    rewrite string_app_cons. simpl.
    destruct (Ascii.ascii_dec c c'); [apply IH|discriminate].
Qed.

(** The text of a sheet starts with its header line. *)
Lemma sheet_text_header (sheet_name : string) (rows : list (list cell)) :
  String.prefix ("Sheet: " +:+ sheet_name +:+ newline) (sheet_text sheet_name rows)
  = true.
Proof.
  unfold sheet_text.
  generalize (prefix_refl ("Sheet: " +:+ sheet_name +:+ newline)).
  generalize ("Sheet: " +:+ sheet_name +:+ newline) at 2 4 as init.
  induction rows as [|row rows IH]; intros init Hinit; simpl; [exact Hinit|].
  apply IH, prefix_app, Hinit.
Qed.

(** One turn of the loop on a sheet whose fetch succeeds or raises
    [HttpError]: the section of the sheet is appended exactly when the
    fetch has values. *)
Lemma fetch_sheet_step (sheet : SheetProperties) (end_column : string)
    (sections : list TextSection) :
  column_letters (column_count sheet) = Some end_column →
  fetch_succeeds_or_http_error w file_id sheet = true →
  if fetch_has_values w file_id sheet
  then ∃ section, fetch_sheet w file view_link sheet end_column sections
                  = Returns (sections ++ [section])
                  ∧ is_section_of_sheet view_link sheet section
  else fetch_sheet w file view_link sheet end_column sections = Returns sections.
Proof.
  intros Hcolumn. unfold fetch_succeeds_or_http_error, fetch_has_values, sheet_fetch.
  rewrite Hcolumn. simpl. unfold fetch_sheet.
  rewrite (file_getitem_present _ _ _ Hid). simpl.
  destruct (values_get w file_id (range_name sheet end_column)) as [answer|e]; simpl.
  - intros _. destruct (truthy (default [] (values answer))); [|reflexivity].
    eexists. split; [reflexivity|]. split; [apply sheet_text_header|reflexivity].
  - destruct e; intros; try discriminate. reflexivity.
Qed.

Lemma sheets_loop_sections (todo : list SheetProperties) :
  ∀ sections,
    forallb (fetch_succeeds_or_http_error w file_id) todo = true →
    ∃ added,
      sheets_loop w file view_link todo sections = Returns (sections ++ added)
      ∧ Forall2 (is_section_of_sheet view_link)
          (filter (λ sheet, fetch_has_values w file_id sheet = true) todo) added.
Proof.
  induction todo as [|sheet todo IH]; intros sections Hall; simpl.
  - exists []. rewrite app_nil_r. split; [reflexivity|constructor].
  - simpl in Hall. apply andb_true_iff in Hall as [Hsheet Hrest].
    destruct (column_letters (column_count sheet)) as [end_column|] eqn:Hcolumn.
    2:{ unfold fetch_succeeds_or_http_error, sheet_fetch in Hsheet.
        rewrite Hcolumn in Hsheet. discriminate. }
    pose proof (fetch_sheet_step sheet end_column sections Hcolumn Hsheet) as Hstep.
    rewrite filter_cons.
    destruct (fetch_has_values w file_id sheet) eqn:Hvalues.
    + destruct Hstep as (section & -> & Hsection). simpl.
      destruct (IH (sections ++ [section]) Hrest) as (added & -> & Hadded).
      exists (section :: added). rewrite <- app_assoc. split; [reflexivity|].
      constructor; assumption.
    + rewrite Hstep. simpl.
      destruct (IH sections Hrest) as (added & -> & Hadded).
      exists added. split; [reflexivity|].
      exact Hadded.
Qed.

End SheetsLoop.

(** C4, as the code has it: for a native spreadsheet whose Sheets client
    is built and whose metadata call succeeds, and in which the values
    fetch of every sheet either succeeds or raises a transport error
    ([HttpError]) (no declared column count being negative), the result
    holds exactly one section per sheet whose fetch succeeds with values
    that are not empty, in sheet order; the text of each starts with
    ["Sheet: <name>"] and a newline, and its link is the file's link with
    the anchor [#gid=<sheet id>]. A sheet without values and a sheet whose
    fetch raises [HttpError] contribute nothing and leave the sections of
    the other sheets in place. *)
Theorem native_spreadsheet_one_section_per_sheet
    (cfg : Config) (w : World) (file : GoogleDriveFileType)
    (view_link file_id : string) (spreadsheet : Spreadsheet) :
  file_get file "mimeType" = Some (SPREADSHEET cfg) →
  file_get file "webViewLink" = Some view_link →
  file_get file "id" = Some file_id →
  sheets_build w = Ok () →
  spreadsheets_get w file_id = Ok spreadsheet →
  forallb (fetch_succeeds_or_http_error w file_id) (sheets spreadsheet) = true →
  ∃ sections,
    _extract_sections_basic cfg w file = Returns sections
    ∧ Forall2 (is_section_of_sheet view_link)
        (filter (λ sheet, fetch_has_values w file_id sheet = true)
                (sheets spreadsheet))
        sections.
Proof.
  intros Hmime Hlink Hid Hbuild Hmeta Hfetches.
  destruct (sheets_loop_sections w file view_link file_id Hid
              (sheets spreadsheet) [] Hfetches) as (sections & Hloop & Hsections).
  exists sections. split; [|exact Hsections].
  rewrite (extract_with_keys cfg w _ _ _ Hmime Hlink), spreadsheet_is_supported.
  simpl. unfold strategies, spreadsheet_branches, sheets_extraction.
  rewrite String.eqb_refl, Hbuild. simpl.
  rewrite (file_getitem_present _ _ _ Hid). simpl.
  rewrite Hmeta. simpl. rewrite Hloop. reflexivity.
Qed.

Lemma native_spreadsheet_one_section_per_sheet_witness :
  ∃ sections,
    _extract_sections_basic sample_config
      (quarterly_world (Err (HttpError sheet_quota_exceeded))) native_sheet_file
    = Returns sections
    ∧ Forall2 (is_section_of_sheet "https://drive.example/f6")
        (filter (λ sheet,
                   fetch_has_values
                     (quarterly_world (Err (HttpError sheet_quota_exceeded)))
                     "f6" sheet = true)
                (sheets quarterly_sheets))
        sections.
Proof.
  apply (native_spreadsheet_one_section_per_sheet
           sample_config (quarterly_world (Err (HttpError sheet_quota_exceeded)))
           native_sheet_file "https://drive.example/f6" "f6" quarterly_sheets);
    reflexivity.
Defined.

(** The same run, evaluated: of the three sheets only [Q1] has a section. *)
Example quarterly_sections :
  _extract_sections_basic sample_config
    (quarterly_world (Err (HttpError sheet_quota_exceeded))) native_sheet_file
  = Returns [mkSection "https://drive.example/f6#gid=0"
               ("Sheet: Q1" +:+ newline +:+ "item" +:+ tab +:+ "12" +:+ newline)].
Proof. reflexivity. Qed.

(** C4 as stated fails: the metadata call succeeds and the fetch of [Q1]
    succeeds with values, but the fetch of [Q2] raises an exception that is
    not an [HttpError]. The sections collected so far are dropped and the
    result is the CSV export of the whole file. *)
Lemma other_fetch_error_drops_sheet_sections :
  spreadsheets_get (quarterly_world (Err (OtherError "TimeoutError"))) "f6"
  = Ok quarterly_sheets
  ∧ fetch_has_values (quarterly_world (Err (OtherError "TimeoutError"))) "f6"
      (mkSheet "Q1" 0 None) = true
  ∧ _extract_sections_basic sample_config
      (quarterly_world (Err (OtherError "TimeoutError"))) native_sheet_file
    = Returns [mkSection "https://drive.example/f6" "a,b"]
  ∧ ¬ is_section_of_sheet "https://drive.example/f6" (mkSheet "Q1" 0 None)
        (mkSection "https://drive.example/f6" "a,b").
Proof.
  repeat split; try reflexivity.
  intros [Hprefix _]. vm_compute in Hprefix. discriminate.
Qed.

(** ** The document assembler *)

Section AssemblerFacts.

Variable cfg : Config.
Variable w : World.

(** A document built by the body of the [try] has a section. *)
Lemma body_document_has_a_section (file : GoogleDriveFileType) (doc : Document) :
  convert_drive_item_body cfg w file = Returns (Some doc) → sections doc ≠ [].
Proof.
  unfold convert_drive_item_body.
  destruct (mime_type_is file (DRIVE_SHORTCUT_TYPE cfg)); [discriminate|].
  destruct (mime_type_is file (DRIVE_FOLDER_TYPE cfg)); [discriminate|].
  destruct (structured_sections cfg w file) as [structured| |];
    simpl; try discriminate.
  destruct (generic_sections cfg w file structured) as [[found|]| |];
    simpl; try discriminate.
  destruct found as [|section found]; simpl; [discriminate|].
  destruct (file_getitem file "webViewLink"); simpl; try discriminate.
  destruct (file_getitem file "name"); simpl; try discriminate.
  destruct (file_getitem file "modifiedTime"); simpl; try discriminate.
  destruct (fromisoformat_utc w _); simpl; try discriminate.
  intros [= <-]. discriminate.
Qed.

(** What the boundary of lines 297-302 does with the outcome of the body. *)
Lemma convert_of_body (file : GoogleDriveFileType) :
  convert_drive_item_to_document cfg w file
  = match convert_drive_item_body cfg w file with
    | Raises e =>
        if CONTINUE_ON_CONNECTOR_FAILURE cfg then Returns None else Raises e
    | o => o
    end.
Proof.
  unfold convert_drive_item_to_document, try_except.
  destruct (convert_drive_item_body cfg w file); try reflexivity.
  destruct (CONTINUE_ON_CONNECTOR_FAILURE cfg); reflexivity.
Qed.

(** The body of the [try] does not read the failure flag. *)
Lemma body_ignores_failure_flag (file : GoogleDriveFileType) (flag : bool) :
  convert_drive_item_body (with_continue_on_failure cfg flag) w file
  = convert_drive_item_body cfg w file.
Proof. reflexivity. Qed.

End AssemblerFacts.

(** C5: a document returned by the assembler has at least one section, and
    a file for which the structured Google Docs path and the section
    extractor both give no section is answered with [None]. *)
Theorem document_always_has_a_section
    (cfg : Config) (w : World) (file : GoogleDriveFileType) :
  (∀ doc, convert_drive_item_to_document cfg w file = Returns (Some doc) →
          sections doc ≠ [])
  ∧ (structured_sections cfg w file = Returns [] →
     _extract_sections_basic cfg w file = Returns [] →
     convert_drive_item_to_document cfg w file = Returns None).
Proof.
  split.
  - intros doc. rewrite convert_of_body.
    destruct (convert_drive_item_body cfg w file) as [result|e|] eqn:Hbody;
      try discriminate.
    + intros [= ->]. apply (body_document_has_a_section _ _ _ _ Hbody).
    + destruct (CONTINUE_ON_CONNECTOR_FAILURE cfg); discriminate.
  - intros Hstructured Hgeneric. rewrite convert_of_body.
    unfold convert_drive_item_body.
    destruct (mime_type_is file (DRIVE_SHORTCUT_TYPE cfg)); [reflexivity|].
    destruct (mime_type_is file (DRIVE_FOLDER_TYPE cfg)); [reflexivity|].
    rewrite Hstructured. simpl. unfold generic_sections. simpl.
    rewrite Hgeneric. reflexivity.
Qed.

Lemma document_always_has_a_section_witness :
  (∃ doc, convert_drive_item_to_document sample_config offline_world image_file
          = Returns (Some doc)
          ∧ sections doc ≠ [])
  ∧ convert_drive_item_to_document sample_config blank_sheet_world native_sheet_file
    = Returns None.
Proof.
  split.
  - eexists. split; [reflexivity|].
    apply (proj1 (document_always_has_a_section sample_config offline_world image_file)).
    reflexivity.
  - apply (proj2 (document_always_has_a_section
                    sample_config blank_sheet_world native_sheet_file));
      reflexivity.
Defined.

(** C6: an exception that leaves the assembly of a document propagates to
    the caller when the continue-on-connector-failure flag is false; with
    the flag true the same exception is swallowed and [None] is returned. *)
Theorem failure_flag_decides_propagation
    (cfg : Config) (w : World) (file : GoogleDriveFileType) (e : exn) :
  convert_drive_item_body cfg w file = Raises e →
  convert_drive_item_to_document (with_continue_on_failure cfg false) w file
  = Raises e
  ∧ convert_drive_item_to_document (with_continue_on_failure cfg true) w file
    = Returns None.
Proof.
  intros Hbody. rewrite !convert_of_body, !body_ignores_failure_flag, Hbody.
  split; reflexivity.
Qed.

Lemma failure_flag_decides_propagation_witness :
  convert_drive_item_to_document
    (with_continue_on_failure sample_config false) offline_world file_without_mime_type
  = Raises (KeyError "mimeType")
  ∧ convert_drive_item_to_document
      (with_continue_on_failure sample_config true) offline_world file_without_mime_type
    = Returns None.
Proof.
  apply (failure_flag_decides_propagation
           sample_config offline_world file_without_mime_type (KeyError "mimeType")).
  reflexivity.
Defined.

(** ** The slim projection *)

Section SlimFacts.

Variable cfg : Config.

(** A descriptor that is neither a folder nor a shortcut passes the
    guard of line 307. *)
Lemma slim_guard_passes (file : GoogleDriveFileType) :
  mime_type_is file (DRIVE_FOLDER_TYPE cfg) = false →
  mime_type_is file (DRIVE_SHORTCUT_TYPE cfg) = false →
  build_slim_document cfg file
  = id ← file_getitem file "webViewLink";
    first_owner ← first_item (default [∅] (file_owners file));
    Returns (Some (mkSlimDocument id
      {| doc_id := file_get file "id";
         drive_id := file_get file "driveId";
         permissions := default [] (file_permissions file);
         permission_ids := default [] (file_permissionIds file);
         name := file_get file "name";
         owner_email := first_owner !! "emailAddress" |})).
Proof.
  unfold build_slim_document, mime_type_is, in_list.
  destruct (file_get file "mimeType") as [mime_type|]; [|reflexivity].
  simpl. intros -> ->. reflexivity.
Qed.

End SlimFacts.

(** C9, as the code has it: for a descriptor that is neither a folder nor
    a shortcut, has a view link and has no owners list, the projection
    returns a slim document whose owner email is [None]; nothing is raised. *)
Theorem slim_document_without_owners
    (cfg : Config) (file : GoogleDriveFileType) (view_link : string) :
  mime_type_is file (DRIVE_FOLDER_TYPE cfg) = false →
  mime_type_is file (DRIVE_SHORTCUT_TYPE cfg) = false →
  file_get file "webViewLink" = Some view_link →
  file_owners file = None →
  ∃ slim, build_slim_document cfg file = Returns (Some slim)
          ∧ slim_id slim = view_link
          ∧ owner_email (perm_sync_data slim) = None.
Proof.
  intros Hfolder Hshortcut Hlink Howners.
  rewrite (slim_guard_passes _ _ Hfolder Hshortcut).
  rewrite (file_getitem_present _ _ _ Hlink), Howners. simpl.
  eexists. split; [reflexivity|]. split; reflexivity.
Qed.

Lemma slim_document_without_owners_witness :
  ∃ slim, build_slim_document sample_config image_file = Returns (Some slim)
          ∧ slim_id slim = "https://drive.example/f3"
          ∧ owner_email (perm_sync_data slim) = None.
Proof.
  apply (slim_document_without_owners sample_config image_file); reflexivity.
Defined.

(** C9 as stated fails: a descriptor that is neither a folder nor a
    shortcut and has no owners list, but has no view link either, makes
    the projection raise [KeyError] at line 311. *)
Lemma slim_document_raises_without_link :
  mime_type_is file_without_link (DRIVE_FOLDER_TYPE sample_config) = false
  ∧ mime_type_is file_without_link (DRIVE_SHORTCUT_TYPE sample_config) = false
  ∧ file_owners file_without_link = None
  ∧ build_slim_document sample_config file_without_link
    = Raises (KeyError "webViewLink").
Proof. repeat split; reflexivity. Qed.

(** C10, as the code has it: for a descriptor that is neither a folder
    nor a shortcut and has a view link, an owners list that is present and
    empty makes the projection raise the [IndexError] of indexing the first
    owner; on a descriptor without a view link the [KeyError] of line 311
    is raised before the owners are read. The default owner is used only
    when the owners key is absent: a slim document is returned either for
    an absent key, with a null owner email, or for a list with a first
    owner, whose [emailAddress] entry is the owner email. *)
Theorem empty_owners_list_raises
    (cfg : Config) (file : GoogleDriveFileType) :
  mime_type_is file (DRIVE_FOLDER_TYPE cfg) = false →
  mime_type_is file (DRIVE_SHORTCUT_TYPE cfg) = false →
  (∀ view_link,
     file_get file "webViewLink" = Some view_link →
     file_owners file = Some [] →
     build_slim_document cfg file = Raises IndexError)
  ∧ (file_get file "webViewLink" = None →
     build_slim_document cfg file = Raises (KeyError "webViewLink"))
  ∧ (∀ slim, build_slim_document cfg file = Returns (Some slim) →
       (file_owners file = None ∧ owner_email (perm_sync_data slim) = None)
       ∨ (∃ first_owner others,
            file_owners file = Some (first_owner :: others)
            ∧ owner_email (perm_sync_data slim) = first_owner !! "emailAddress")).
Proof.
  intros Hfolder Hshortcut.
  rewrite (slim_guard_passes _ _ Hfolder Hshortcut).
  unfold file_getitem, getitem, file_get.
  destruct (str_fields file !! "webViewLink") as [link|]; simpl.
  - split; [|split].
    + intros view_link _ ->. reflexivity.
    + discriminate.
    + intros slim. destruct (file_owners file) as [[|first_owner others]|]; simpl.
      * discriminate.
      * intros [= <-]. right. eauto.
      * intros [= <-]. left. split; reflexivity.
  - split; [|split].
    + discriminate.
    + reflexivity.
    + discriminate.
Qed.

Lemma empty_owners_list_raises_witness :
  build_slim_document sample_config empty_owners_file = Raises IndexError
  ∧ (∃ slim, build_slim_document sample_config owned_file = Returns (Some slim)
             ∧ owner_email (perm_sync_data slim) = Some "ada@example.com").
Proof.
  split.
  - apply (proj1 (empty_owners_list_raises sample_config empty_owners_file
                    eq_refl eq_refl) "https://drive.example/f7");
      reflexivity.
  - eexists. split; [reflexivity|].
    destruct (proj2 (proj2 (empty_owners_list_raises sample_config owned_file
                              eq_refl eq_refl)) _ eq_refl)
      as [[Habsent _]|(first & others & Hlist & ->)].
    + discriminate Habsent.
    + injection Hlist as <- _. reflexivity.
Defined.

(** C10 as stated fails: a descriptor that is neither a folder nor a
    shortcut and whose owners list is present and empty, but which has no
    view link, makes the projection raise [KeyError] at line 311, not
    [IndexError]: the owners are never indexed. *)
Lemma empty_owners_without_link_raises_key_error :
  mime_type_is empty_owners_file_without_link (DRIVE_FOLDER_TYPE sample_config)
  = false
  ∧ mime_type_is empty_owners_file_without_link (DRIVE_SHORTCUT_TYPE sample_config)
    = false
  ∧ file_owners empty_owners_file_without_link = Some []
  ∧ build_slim_document sample_config empty_owners_file_without_link
    = Raises (KeyError "webViewLink")
  ∧ build_slim_document sample_config empty_owners_file_without_link
    ≠ Raises IndexError.
Proof. repeat split; try reflexivity. discriminate. Qed.


(** * Further properties *)

Set Warnings "-clear-no-such-hyp".

(** ** The tenant context variable *)

(** X1: [get_current_tenant_id] raises exactly in multi-tenant mode when
    the context holds no tenant id, that is when the variable is unset or
    set to [None]; the exception is then a [RuntimeError]. *)
Theorem tenant_id_raises_iff_multi_tenant_unset
    (tc : TenantConfig) (current : option (option string)) :
  ((∃ e, get_current_tenant_id tc current = Raises e)
   ↔ MULTI_TENANT tc = true ∧ (current = None ∨ current = Some None))
  ∧ (∀ e, get_current_tenant_id tc current = Raises e →
          e = OtherError "RuntimeError").
Proof.
  unfold get_current_tenant_id, contextvar_get, CURRENT_TENANT_ID_CONTEXTVAR.
  destruct tc as [[|] schema], current as [[tenant|]|]; simpl;
    (split; [split|]).
  all: try (intros [e He]; first [discriminate He | split; auto]).
  all: try (intros [Hmulti [Hcurrent|Hcurrent]];
            first [discriminate Hmulti | discriminate Hcurrent | eauto]).
  all: intros e He; first [discriminate He | injection He as <-; reflexivity].
Qed.

(** X2: in single-tenant mode the function always returns: the tenant id
    the context has set, and the default schema when the variable is unset
    or set to [None]. *)
Theorem single_tenant_resolves_to_default_schema
    (tc : TenantConfig) (current : option (option string)) :
  MULTI_TENANT tc = false →
  get_current_tenant_id tc current
  = Returns match current with
            | Some (Some tenant) => tenant
            | _ => POSTGRES_DEFAULT_SCHEMA tc
            end.
Proof.
  unfold get_current_tenant_id, contextvar_get, CURRENT_TENANT_ID_CONTEXTVAR.
  intros ->. destruct current as [[tenant|]|]; reflexivity.
Qed.

Lemma single_tenant_resolves_to_default_schema_witness :
  get_current_tenant_id (mkTenantConfig false "public") (Some None)
  = Returns "public".
Proof.
  apply (single_tenant_resolves_to_default_schema
           (mkTenantConfig false "public") (Some None)).
  reflexivity.
Defined.

(** ** More on column letters *)

(** X3: distinct column counts get distinct labels: on counts that are not
    negative the conversion is injective. *)
Theorem column_letters_injective (n m : Z) :
  0 ≤ n → 0 ≤ m → column_letters n = column_letters m → n = m.
Proof.
  intros Hn Hm Heq.
  destruct (column_letters_value n Hn) as (label & Hlabel & Hvalue & _).
  destruct (column_letters_value m Hm) as (label' & Hlabel' & Hvalue' & _).
  rewrite Hlabel, Hlabel' in Heq. injection Heq as ->. congruence.
Qed.

Lemma column_letters_injective_witness : 27 = 26 + 1.
Proof.
  apply (column_letters_injective 27 (26 + 1)); [lia|lia|reflexivity].
Defined.

(** X4: on a negative column count the loop of lines 80-82 does not exit,
    whatever the number of iterations: the count stays negative and never
    becomes zero. On a count that is not negative it exits within that
    many iterations. *)
Theorem column_loop_exits_iff_not_negative (n : Z) (acc : string) :
  (n < 0 → ∀ fuel, column_letter_loop fuel n acc = None)
  ∧ (0 ≤ n → ∀ fuel, (Z.to_nat n ≤ fuel)%nat →
             is_Some (column_letter_loop fuel n acc)).
Proof.
  split.
  - intros Hn fuel. apply column_letter_loop_negative, Hn.
  - intros Hn fuel Hfuel. apply column_letter_loop_enough; assumption.
Qed.

Lemma column_loop_exits_iff_not_negative_witness :
  column_letter_loop 1000 (-1) "" = None
  ∧ is_Some (column_letter_loop 30 28 "").
Proof.
  destruct (column_loop_exits_iff_not_negative (-1) "") as [Hneg _].
  destruct (column_loop_exits_iff_not_negative 28 "") as [_ Hpos].
  split; [apply Hneg; lia | apply Hpos; lia].
Defined.

Lemma tenant_id_raises_iff_multi_tenant_unset_witness :
  get_current_tenant_id (mkTenantConfig true "public") None
  = Raises (OtherError "RuntimeError").
Proof.
  destruct (tenant_id_raises_iff_multi_tenant_unset
              (mkTenantConfig true "public") None) as [[_ Hraises] Hkind].
  destruct Hraises as [e He]; [split; [reflexivity|left; reflexivity]|].
  rewrite He. f_equal. apply Hkind, He.
Defined.

(** ** More on native spreadsheets *)

Lemma string_app_nil_r (s : string) : s +:+ "" = s.
Proof.
  induction s as [|c s IH]; [reflexivity|].
  rewrite string_app_cons, IH. reflexivity.
Qed.

Lemma sheet_text_from (rows : list (list cell)) :
  ∀ init,
    fold_left (λ text row, text +:+ String.concat tab (map py_str row) +:+ newline)
      rows init
    = init +:+ concat_strings (map row_line rows).
Proof.
  induction rows as [|row rows IH]; intros init; simpl.
  - rewrite string_app_nil_r. reflexivity.
  - rewrite IH, string_app_assoc. reflexivity.
Qed.

(** A sheet without declared extent is requested over 1000 rows and 26
    columns. *)
Lemma sheet_fetch_undeclared_extent
    (w : World) (file_id : string) (sheet : SheetProperties) :
  undeclared_extent sheet = true →
  sheet_fetch w file_id sheet
  = Some (values_get w file_id ("'" +:+ title sheet +:+ "'!A1:Z1000")).
Proof.
  unfold undeclared_extent, sheet_fetch, range_name, column_count, row_count.
  destruct (gridProperties sheet) as [[[rows|] [columns|]]|];
    try discriminate; reflexivity.
Qed.

(** ** The shape of what the extractor returns *)

Section ExtractorShape.

Variable cfg : Config.
Variable w : World.
Variable file : GoogleDriveFileType.
Variable view_link : string.

Lemma prefix_self_app (p s : string) : String.prefix p (p +:+ s) = true.
Proof. apply prefix_app, prefix_refl. Qed.

Lemma in_list_not_elem_of (x : string) (l : list string) :
  x ∉ l → in_list x l = false.
Proof.
  intros Hx. destruct (in_list x l) eqn:Hin; [|reflexivity].
  apply in_list_elem_of in Hin. contradiction.
Qed.

(** One turn of the loop leaves [sections] as it was or appends the
    section of the sheet. *)
Lemma fetch_sheet_returns (sheet : SheetProperties) (end_column : string)
    (sections sections' : list TextSection) :
  fetch_sheet w file view_link sheet end_column sections = Returns sections' →
  sections' = sections
  ∨ ∃ section, sections' = sections ++ [section]
               ∧ is_section_of_sheet view_link sheet section.
Proof.
  unfold fetch_sheet, file_getitem, getitem.
  destruct (str_fields file !! "id") as [file_id|]; simpl; [|discriminate].
  destruct (values_get w file_id _) as [answer|e]; simpl.
  - destruct (truthy (default [] (values answer))); intros [= <-]; [|left; reflexivity].
    right. eexists. split; [reflexivity|].
    split; [apply sheet_text_header|reflexivity].
  - destruct e; try discriminate. intros [= <-]. left. reflexivity.
Qed.

Lemma sheets_loop_returns (todo : list SheetProperties) :
  ∀ sections result,
    sheets_loop w file view_link todo sections = Returns result →
    ∃ kept added,
      result = sections ++ added
      ∧ kept `sublist_of` todo
      ∧ Forall2 (is_section_of_sheet view_link) kept added.
Proof.
  induction todo as [|sheet todo IH]; intros sections result; simpl.
  - intros [= <-]. exists [], []. rewrite app_nil_r.
    repeat split; constructor.
  - destruct (column_letters (column_count sheet)) as [end_column|]; [|discriminate].
    destruct (fetch_sheet w file view_link sheet end_column sections)
      as [sections'| |] eqn:Hfetch; simpl; try discriminate.
    intros Hloop. destruct (IH _ _ Hloop) as (kept & added & -> & Hsub & Hall).
    destruct (fetch_sheet_returns _ _ _ _ Hfetch) as [->|(section & -> & Hsection)].
    + exists kept, added. repeat split; [|exact Hall]. apply sublist_cons, Hsub.
    + exists (sheet :: kept), (section :: added). rewrite <- app_assoc.
      repeat split; [apply sublist_skip, Hsub|]. constructor; assumption.
Qed.

(** What the native branch returns comes from the sheets of the metadata
    answer. *)
Lemma sheets_extraction_returns (sections : list TextSection) :
  sheets_extraction w file view_link = Returns sections →
  ∃ file_id spreadsheet kept,
    file_get file "id" = Some file_id
    ∧ spreadsheets_get w file_id = Ok spreadsheet
    ∧ kept `sublist_of` sheets spreadsheet
    ∧ Forall2 (is_section_of_sheet view_link) kept sections.
Proof.
  unfold sheets_extraction, file_getitem, getitem, file_get.
  destruct (sheets_build w); simpl; [|discriminate].
  destruct (str_fields file !! "id") as [file_id|]; simpl; [|discriminate].
  destruct (spreadsheets_get w file_id) as [spreadsheet|] eqn:Hmeta; simpl;
    [|discriminate].
  intros Hloop.
  destruct (sheets_loop_returns _ _ _ Hloop) as (kept & added & -> & Hsub & Hall).
  exists file_id, spreadsheet, kept. auto.
Qed.

Lemma excel_extraction_returns (sections : list TextSection) :
  excel_extraction w file view_link = Returns sections →
  ∃ file_id response workbook,
    file_get file "id" = Some file_id
    ∧ files_get_media w file_id = Ok response
    ∧ load_workbook w response = Ok workbook
    ∧ sections = map (worksheet_section view_link) (worksheets workbook).
Proof.
  unfold excel_extraction, file_getitem, getitem, file_get.
  destruct (str_fields file !! "id") as [file_id|]; simpl; [|discriminate].
  destruct (files_get_media w file_id) as [response|] eqn:Hmedia; simpl;
    [|discriminate].
  destruct (load_workbook w response) as [workbook|] eqn:Hload; simpl;
    [|discriminate].
  intros [= <-]. exists file_id, response, workbook. auto.
Qed.

Lemma plain_text_extraction_cases :
  (∃ text, plain_text_extraction w file view_link
           = Returns [mkSection view_link text])
  ∨ (∃ e, plain_text_extraction w file view_link = Raises e).
Proof.
  unfold plain_text_extraction, file_getitem, getitem.
  destruct (str_fields file !! "id") as [file_id|]; simpl; [|eauto].
  destruct (files_get_media w file_id) as [response|e]; simpl; [|eauto].
  destruct (decode_utf8 w response) as [text|e]; simpl; eauto.
Qed.

Lemma binary_extraction_cases (mime_type : string) :
  (∃ text, binary_extraction cfg w file mime_type view_link
           = Returns (Some [mkSection view_link text]))
  ∨ binary_extraction cfg w file mime_type view_link = Returns None
  ∨ (∃ e, binary_extraction cfg w file mime_type view_link = Raises e).
Proof.
  unfold binary_extraction, file_getitem, getitem.
  destruct (str_fields file !! "id") as [file_id|]; simpl; [|eauto].
  destruct (files_get_media w file_id) as [response|e]; simpl; [|eauto].
  destruct unstructured_enabled.
  { destruct (unstructured_to_text w response _) as [text|e]; simpl; eauto. }
  destruct (String.eqb mime_type (WORD_DOC cfg)).
  { destruct (docx_to_text w response) as [text|e]; simpl; eauto. }
  destruct (String.eqb mime_type (PDF cfg)).
  { destruct (read_pdf_file w response) as [text|e]; simpl; eauto. }
  destruct (String.eqb mime_type (POWERPOINT cfg)); [|eauto].
  destruct (pptx_to_text w response) as [text|e]; simpl; eauto.
Qed.

(** Lines 164-232, reached when no spreadsheet branch has returned: one
    section under the file's link, or an exception. *)
Lemma later_strategies_cases (mime_type : string) :
  let later :=
    if in_list mime_type [DOC cfg; PPT cfg; SPREADSHEET cfg] then
      export_extraction cfg w file mime_type view_link
    else if in_list mime_type [PLAIN_TEXT cfg; MARKDOWN cfg] then
      plain_text_extraction w file view_link
    else
      late ← (if in_list mime_type [WORD_DOC cfg; POWERPOINT cfg; PDF cfg]
              then binary_extraction cfg w file mime_type view_link
              else Returns None);
      match late with
      | Some sections => Returns sections
      | None => Raises (ValueError ("Unsupported file type: " +:+ mime_type))
      end in
  (∃ text, later = Returns [mkSection view_link text]) ∨ (∃ e, later = Raises e).
Proof.
  simpl.
  destruct (in_list mime_type [DOC cfg; PPT cfg; SPREADSHEET cfg]).
  { apply export_extraction_cases. }
  destruct (in_list mime_type [PLAIN_TEXT cfg; MARKDOWN cfg]).
  { apply plain_text_extraction_cases. }
  destruct (in_list mime_type [WORD_DOC cfg; POWERPOINT cfg; PDF cfg]);
    [|simpl; eauto].
  destruct (binary_extraction_cases mime_type) as [[text ->]|[->|[e ->]]];
    simpl; eauto.
Qed.

(** The strategies with the spreadsheet branches out of the way. *)
Lemma strategies_without_spreadsheets (mime_type : string) :
  mime_type ≠ SPREADSHEET cfg →
  mime_type ∉ [SPREADSHEET_OPEN_FORMAT cfg; SPREADSHEET_MS_EXCEL cfg] →
  strategies cfg w file mime_type view_link
  = if in_list mime_type [DOC cfg; PPT cfg; SPREADSHEET cfg] then
      export_extraction cfg w file mime_type view_link
    else if in_list mime_type [PLAIN_TEXT cfg; MARKDOWN cfg] then
      plain_text_extraction w file view_link
    else
      late ← (if in_list mime_type [WORD_DOC cfg; POWERPOINT cfg; PDF cfg]
              then binary_extraction cfg w file mime_type view_link
              else Returns None);
      match late with
      | Some sections => Returns sections
      | None => Raises (ValueError ("Unsupported file type: " +:+ mime_type))
      end.
Proof.
  intros Hnative Hexcel. unfold strategies, spreadsheet_branches.
  apply String.eqb_neq in Hnative. rewrite Hnative.
  rewrite (in_list_not_elem_of _ _ Hexcel). reflexivity.
Qed.

(** Where the sections of a returning run of the strategies come from. *)
Lemma strategies_returns_shape (mime_type : string) (sections : list TextSection) :
  strategies cfg w file mime_type view_link = Returns sections →
  (mime_type = SPREADSHEET cfg
   ∧ sheets_extraction w file view_link = Returns sections)
  ∨ (mime_type ≠ SPREADSHEET cfg
     ∧ excel_extraction w file view_link = Returns sections)
  ∨ ∃ text, sections = [mkSection view_link text].
Proof.
  unfold strategies, spreadsheet_branches.
  pose proof (later_strategies_cases mime_type) as Hlater. simpl in Hlater.
  destruct (String.eqb_spec mime_type (SPREADSHEET cfg)) as [Hnative|Hnative].
  - destruct (sheets_extraction w file view_link) as [found|e|]; simpl;
      [intros [= <-]; auto| |discriminate].
    destruct (file_getitem file "name"); simpl; try discriminate.
    destruct Hlater as [[text ->]|[e' ->]]; [|discriminate].
    intros [= <-]. eauto.
  - destruct (in_list mime_type [SPREADSHEET_OPEN_FORMAT cfg; SPREADSHEET_MS_EXCEL cfg]).
    + destruct (excel_extraction w file view_link) as [found|e|]; simpl;
        [intros [= <-]; auto| |discriminate].
      destruct (file_getitem file "name"); simpl; try discriminate.
      intros [= <-]. eauto.
    + simpl. destruct Hlater as [[text ->]|[e' ->]]; [|discriminate].
      intros [= <-]. eauto.
Qed.

(** The same for the extractor. *)
Lemma extract_returns_shape (mime_type : string) (sections : list TextSection) :
  file_get file "mimeType" = Some mime_type →
  file_get file "webViewLink" = Some view_link →
  _extract_sections_basic cfg w file = Returns sections →
  (mime_type = SPREADSHEET cfg
   ∧ sheets_extraction w file view_link = Returns sections)
  ∨ (mime_type ≠ SPREADSHEET cfg
     ∧ excel_extraction w file view_link = Returns sections)
  ∨ ∃ text, sections = [mkSection view_link text].
Proof.
  intros Hmime Hlink. rewrite (extract_with_keys _ _ _ _ _ Hmime Hlink).
  destruct (negb _); [intros [= <-]; eauto|].
  destruct (strategies cfg w file mime_type view_link) as [found|e|] eqn:Hrun;
    simpl; [|intros [= <-]; eauto|discriminate].
  intros [= <-]. apply (strategies_returns_shape _ _ Hrun).
Qed.

(** The ten named members of the enumeration are supported. *)
Lemma named_type_supported (mime_type : string) :
  mime_type ∈ [DOC cfg; SPREADSHEET cfg; SPREADSHEET_OPEN_FORMAT cfg;
               SPREADSHEET_MS_EXCEL cfg; PDF cfg; WORD_DOC cfg; PPT cfg;
               POWERPOINT cfg; PLAIN_TEXT cfg; MARKDOWN cfg] →
  in_list mime_type (supported_file_types cfg) = true.
Proof.
  intros Hin. apply in_list_elem_of. unfold supported_file_types.
  apply elem_of_app. left. exact Hin.
Qed.

End ExtractorShape.

(** X7: what the extractor returns for a native spreadsheet is either
    the sections of some of the sheets of the metadata answer, in sheet
    order and at most one per sheet, or a single section under the file's
    view link (the export fallback or the sentinel). *)
Theorem native_spreadsheet_result_shape
    (cfg : Config) (w : World) (file : GoogleDriveFileType)
    (view_link : string) (sections : list TextSection) :
  file_get file "mimeType" = Some (SPREADSHEET cfg) →
  file_get file "webViewLink" = Some view_link →
  _extract_sections_basic cfg w file = Returns sections →
  (∃ file_id spreadsheet kept,
     file_get file "id" = Some file_id
     ∧ spreadsheets_get w file_id = Ok spreadsheet
     ∧ kept `sublist_of` sheets spreadsheet
     ∧ Forall2 (is_section_of_sheet view_link) kept sections
     ∧ (length sections ≤ length (sheets spreadsheet))%nat)
  ∨ ∃ text, sections = [mkSection view_link text].
Proof.
  intros Hmime Hlink Hrun.
  destruct (extract_returns_shape _ _ _ _ _ _ Hmime Hlink Hrun)
    as [[_ Hsheets]|[[Hne _]|Hsingle]]; [|contradiction|right; exact Hsingle].
  left. destruct (sheets_extraction_returns _ _ _ _ Hsheets)
    as (file_id & spreadsheet & kept & Hid & Hmeta & Hsub & Hall).
  exists file_id, spreadsheet, kept. repeat split; try assumption.
  rewrite <- (Forall2_length _ _ _ Hall). apply sublist_length, Hsub.
Qed.

Lemma native_spreadsheet_result_shape_witness :
  (∃ file_id spreadsheet kept,
     file_get native_sheet_file "id" = Some file_id
     ∧ spreadsheets_get (quarterly_world (Err (HttpError sheet_quota_exceeded)))
         file_id = Ok spreadsheet
     ∧ kept `sublist_of` sheets spreadsheet
     ∧ Forall2 (is_section_of_sheet "https://drive.example/f6") kept
         [mkSection "https://drive.example/f6#gid=0"
            ("Sheet: Q1" +:+ newline +:+ "item" +:+ tab +:+ "12" +:+ newline)]
     ∧ (length [mkSection "https://drive.example/f6#gid=0"
                  ("Sheet: Q1" +:+ newline +:+ "item" +:+ tab +:+ "12" +:+ newline)]
        ≤ length (sheets spreadsheet))%nat)
  ∨ ∃ text,
      [mkSection "https://drive.example/f6#gid=0"
         ("Sheet: Q1" +:+ newline +:+ "item" +:+ tab +:+ "12" +:+ newline)]
      = [mkSection "https://drive.example/f6" text].
Proof.
  apply (native_spreadsheet_result_shape sample_config
           (quarterly_world (Err (HttpError sheet_quota_exceeded)))
           native_sheet_file); reflexivity.
Defined.

(** X8: whatever the MIME type, the link of every section the extractor
    returns starts with the file's view link. *)
Theorem section_links_start_with_view_link
    (cfg : Config) (w : World) (file : GoogleDriveFileType)
    (mime_type view_link : string) (sections : list TextSection) :
  file_get file "mimeType" = Some mime_type →
  file_get file "webViewLink" = Some view_link →
  _extract_sections_basic cfg w file = Returns sections →
  Forall (λ section, String.prefix view_link (link section) = true) sections.
Proof.
  intros Hmime Hlink Hrun.
  destruct (extract_returns_shape _ _ _ _ _ _ Hmime Hlink Hrun)
    as [[_ Hsheets]|[[_ Hexcel]|[text ->]]].
  - destruct (sheets_extraction_returns _ _ _ _ Hsheets)
      as (_ & _ & kept & _ & _ & _ & Hall).
    clear Hrun Hsheets.
    induction Hall as [|sheet section kept' sections' [_ Hsection] _ IH];
      [constructor|].
    constructor; [|exact IH].
    rewrite Hsection. apply prefix_self_app.
  - destruct (excel_extraction_returns _ _ _ _ Hexcel)
      as (_ & _ & workbook & _ & _ & _ & ->).
    apply Forall_forall. intros section Hin.
    apply list_elem_of_fmap in Hin as (sheet & -> & _). apply prefix_refl.
  - constructor; [apply prefix_refl|constructor].
Qed.

Lemma section_links_start_with_view_link_witness :
  Forall (λ section,
            String.prefix "https://drive.example/f6" (link section) = true)
    [mkSection "https://drive.example/f6#gid=0"
       ("Sheet: Q1" +:+ newline +:+ "item" +:+ tab +:+ "12" +:+ newline)].
Proof.
  apply (section_links_start_with_view_link sample_config
           (quarterly_world (Err (HttpError sheet_quota_exceeded)))
           native_sheet_file "application/vnd.google-apps.spreadsheet");
    reflexivity.
Defined.

(** X9: for a descriptor with a MIME type and a view link whose type is
    neither the native spreadsheet type nor one of the two Excel types,
    the extractor returns exactly one section, and its link is the file's
    view link. *)
Theorem other_types_yield_exactly_one_section
    (cfg : Config) (w : World) (file : GoogleDriveFileType)
    (mime_type view_link : string) :
  file_get file "mimeType" = Some mime_type →
  file_get file "webViewLink" = Some view_link →
  mime_type ≠ SPREADSHEET cfg →
  mime_type ∉ [SPREADSHEET_OPEN_FORMAT cfg; SPREADSHEET_MS_EXCEL cfg] →
  ∃ text, _extract_sections_basic cfg w file = Returns [mkSection view_link text].
Proof.
  intros Hmime Hlink Hnative Hexcel.
  rewrite (extract_with_keys _ _ _ _ _ Hmime Hlink).
  destruct (negb _); [eauto|].
  rewrite (strategies_without_spreadsheets _ _ _ _ _ Hnative Hexcel).
  destruct (later_strategies_cases cfg w file view_link mime_type)
    as [[text ->]|[e ->]]; simpl; eauto.
Qed.

Lemma other_types_yield_exactly_one_section_witness :
  ∃ text, _extract_sections_basic sample_config offline_world pdf_file
          = Returns [mkSection "https://drive.example/f4" text].
Proof.
  apply (other_types_yield_exactly_one_section
           sample_config offline_world pdf_file "application/pdf").
  - reflexivity.
  - reflexivity.
  - discriminate.
  - intros Hin. apply in_list_elem_of in Hin. vm_compute in Hin. discriminate.
Defined.

(** ** The branches of the extractor *)

(** X10: an Excel workbook ([.xlsx] or [.xls] MIME type) that downloads
    and opens gives one section per worksheet, in order, each under the
    file's view link. If the download or the workbook fails, the result is
    the single section ["Error extracting data from Excel file"] (the file
    is not exported instead); and if the descriptor has no name for the
    log line of that handler, the sentinel section. *)
Theorem excel_workbook_sections
    (cfg : Config) (w : World) (file : GoogleDriveFileType)
    (mime_type view_link : string) :
  file_get file "mimeType" = Some mime_type →
  file_get file "webViewLink" = Some view_link →
  mime_type ≠ SPREADSHEET cfg →
  mime_type ∈ [SPREADSHEET_OPEN_FORMAT cfg; SPREADSHEET_MS_EXCEL cfg] →
  (∀ file_id response workbook,
     file_get file "id" = Some file_id →
     files_get_media w file_id = Ok response →
     load_workbook w response = Ok workbook →
     _extract_sections_basic cfg w file
     = Returns (map (worksheet_section view_link) (worksheets workbook)))
  ∧ (∀ e file_name,
       excel_extraction w file view_link = Raises e →
       file_get file "name" = Some file_name →
       _extract_sections_basic cfg w file
       = Returns [mkSection view_link "Error extracting data from Excel file"])
  ∧ (∀ e,
       excel_extraction w file view_link = Raises e →
       file_get file "name" = None →
       _extract_sections_basic cfg w file
       = Returns [mkSection view_link (UNSUPPORTED_FILE_TYPE_CONTENT cfg)]).
Proof.
  intros Hmime Hlink Hnative Hexcel.
  rewrite (extract_with_keys _ _ _ _ _ Hmime Hlink).
  rewrite named_type_supported by set_solver. simpl.
  unfold strategies, spreadsheet_branches.
  apply String.eqb_neq in Hnative. rewrite Hnative.
  apply in_list_elem_of in Hexcel. rewrite Hexcel.
  split; [|split].
  - intros file_id response workbook Hid Hmedia Hload. unfold excel_extraction.
    rewrite (file_getitem_present _ _ _ Hid). simpl.
    rewrite Hmedia. simpl. rewrite Hload. reflexivity.
  - intros e file_name -> Hname. simpl.
    rewrite (file_getitem_present _ _ _ Hname). reflexivity.
  - intros e -> Hname. simpl.
    rewrite (file_getitem_absent _ _ Hname). reflexivity.
Qed.

Lemma excel_workbook_sections_witness :
  _extract_sections_basic sample_config sheets_down_world excel_file
  = Returns [mkSection "https://drive.example/f9"
               ("Sheet: Sheet1" +:+ newline +:+ newline +:+ "x")]
  ∧ _extract_sections_basic sample_config offline_world excel_file
    = Returns [mkSection "https://drive.example/f9"
                 "Error extracting data from Excel file"].
Proof.
  assert (Hin : "application/vnd.ms-excel"
                ∈ [SPREADSHEET_OPEN_FORMAT sample_config;
                   SPREADSHEET_MS_EXCEL sample_config]).
  { apply in_list_elem_of. reflexivity. }
  split.
  - apply (proj1 (excel_workbook_sections sample_config sheets_down_world
                    excel_file "application/vnd.ms-excel" "https://drive.example/f9"
                    eq_refl eq_refl ltac:(discriminate) Hin)
             "f9" (String.list_byte_of_string "x")
             (mkWorkbook [mkWorksheet "Sheet1" [[CStr "x"]]]));
      reflexivity.
  - apply (proj1 (proj2 (excel_workbook_sections sample_config offline_world
                           excel_file "application/vnd.ms-excel"
                           "https://drive.example/f9"
                           eq_refl eq_refl ltac:(discriminate) Hin))
             (OtherError "ConnectionError") "ledger.xls");
      reflexivity.
Defined.

(** X11: a MIME type that is a member of the enumeration but is none of
    the ten types the branches test reaches the catch-all: the strategies
    raise [ValueError] with the message ["Unsupported file type: <type>"]
    and the extractor returns the sentinel section. *)
Theorem unhandled_member_reaches_catch_all
    (cfg : Config) (w : World) (file : GoogleDriveFileType)
    (mime_type view_link : string) :
  file_get file "mimeType" = Some mime_type →
  file_get file "webViewLink" = Some view_link →
  mime_type ∈ other_members cfg →
  mime_type ∉ [DOC cfg; SPREADSHEET cfg; SPREADSHEET_OPEN_FORMAT cfg;
               SPREADSHEET_MS_EXCEL cfg; PDF cfg; WORD_DOC cfg; PPT cfg;
               POWERPOINT cfg; PLAIN_TEXT cfg; MARKDOWN cfg] →
  strategies cfg w file mime_type view_link
  = Raises (ValueError ("Unsupported file type: " +:+ mime_type))
  ∧ _extract_sections_basic cfg w file
    = Returns [mkSection view_link (UNSUPPORTED_FILE_TYPE_CONTENT cfg)].
Proof.
  intros Hmime Hlink Hmember Hunnamed.
  assert (Hrun : strategies cfg w file mime_type view_link
                 = Raises (ValueError ("Unsupported file type: " +:+ mime_type))).
  { rewrite strategies_without_spreadsheets by set_solver.
    rewrite !in_list_not_elem_of by set_solver. reflexivity. }
  split; [exact Hrun|].
  rewrite (extract_with_keys _ _ _ _ _ Hmime Hlink), Hrun.
  destruct (negb _); reflexivity.
Qed.

Lemma unhandled_member_reaches_catch_all_witness :
  strategies extended_config offline_world epub_file
    "application/epub+zip" "https://drive.example/f10"
  = Raises (ValueError "Unsupported file type: application/epub+zip")
  ∧ _extract_sections_basic extended_config offline_world epub_file
    = Returns [mkSection "https://drive.example/f10"
                 "This file type is not supported"].
Proof.
  apply (unhandled_member_reaches_catch_all extended_config offline_world epub_file
           "application/epub+zip" "https://drive.example/f10").
  - reflexivity.
  - reflexivity.
  - apply in_list_elem_of. reflexivity.
  - intros Hin. apply in_list_elem_of in Hin. vm_compute in Hin. discriminate.
Defined.

(** X12: when an unstructured API key is configured, a Word, PowerPoint
    or PDF file is handed to the extraction service under the file's name,
    or under its id when it has no name, and the decoders of the three
    formats are not consulted; a failure of the service gives the sentinel
    section. *)
Theorem configured_service_replaces_decoders
    (cfg : Config) (w : World) (file : GoogleDriveFileType)
    (mime_type view_link file_id key : string) (response : bytes) :
  file_get file "mimeType" = Some mime_type →
  file_get file "webViewLink" = Some view_link →
  file_get file "id" = Some file_id →
  mime_type ∈ [WORD_DOC cfg; POWERPOINT cfg; PDF cfg] →
  mime_type ∉ [SPREADSHEET cfg; SPREADSHEET_OPEN_FORMAT cfg;
               SPREADSHEET_MS_EXCEL cfg; DOC cfg; PPT cfg;
               PLAIN_TEXT cfg; MARKDOWN cfg] →
  get_unstructured_api_key w = Some key →
  key ≠ "" →
  files_get_media w file_id = Ok response →
  _extract_sections_basic cfg w file
  = match unstructured_to_text w response
            (default file_id (file_get file "name")) with
    | Ok text => Returns [mkSection view_link text]
    | Err _ => Returns [mkSection view_link (UNSUPPORTED_FILE_TYPE_CONTENT cfg)]
    end.
Proof.
  intros Hmime Hlink Hid Hbinary Hearlier Hkey Hnonempty Hmedia.
  rewrite (extract_with_keys _ _ _ _ _ Hmime Hlink).
  rewrite named_type_supported by set_solver. simpl.
  rewrite strategies_without_spreadsheets by set_solver.
  rewrite !in_list_not_elem_of by set_solver.
  apply in_list_elem_of in Hbinary. rewrite Hbinary.
  unfold binary_extraction, unstructured_enabled.
  rewrite (file_getitem_present _ _ _ Hid), Hkey. simpl. rewrite Hmedia. simpl.
  apply String.eqb_neq in Hnonempty. rewrite Hnonempty. simpl.
  destruct (unstructured_to_text w response _); reflexivity.
Qed.

Lemma configured_service_replaces_decoders_witness :
  _extract_sections_basic sample_config unstructured_world pdf_file
  = Returns [mkSection "https://drive.example/f4" "text of paper.pdf"].
Proof.
  apply (configured_service_replaces_decoders sample_config unstructured_world
           pdf_file "application/pdf" "https://drive.example/f4" "f4" "key"
           (String.list_byte_of_string "x")).
  - reflexivity.
  - reflexivity.
  - reflexivity.
  - apply in_list_elem_of. reflexivity.
  - intros Hin. apply in_list_elem_of in Hin. vm_compute in Hin. discriminate.
  - reflexivity.
  - discriminate.
  - reflexivity.
Defined.

(** X13: a Google Doc or a Google Slides file is exported as
    [text/plain] (never as [text/csv]); the decoded export is the text of
    the single section, and a failure of the export or of its decoding
    gives the sentinel section. *)
Theorem documents_are_exported_as_plain_text
    (cfg : Config) (w : World) (file : GoogleDriveFileType)
    (mime_type view_link file_id : string) :
  file_get file "mimeType" = Some mime_type →
  file_get file "webViewLink" = Some view_link →
  file_get file "id" = Some file_id →
  mime_type ∈ [DOC cfg; PPT cfg] →
  mime_type ∉ [SPREADSHEET cfg; SPREADSHEET_OPEN_FORMAT cfg;
               SPREADSHEET_MS_EXCEL cfg] →
  _extract_sections_basic cfg w file
  = match files_export w file_id "text/plain" with
    | Ok exported =>
        match decode_utf8 w exported with
        | Ok text => Returns [mkSection view_link text]
        | Err _ => Returns [mkSection view_link (UNSUPPORTED_FILE_TYPE_CONTENT cfg)]
        end
    | Err _ => Returns [mkSection view_link (UNSUPPORTED_FILE_TYPE_CONTENT cfg)]
    end.
Proof.
  intros Hmime Hlink Hid Hdocument Hspreadsheet.
  rewrite (extract_with_keys _ _ _ _ _ Hmime Hlink).
  rewrite named_type_supported by set_solver. simpl.
  rewrite strategies_without_spreadsheets by set_solver.
  assert (Hexport : in_list mime_type [DOC cfg; PPT cfg; SPREADSHEET cfg] = true).
  { apply in_list_elem_of. set_solver. }
  rewrite Hexport. unfold export_extraction.
  assert (Hnative : String.eqb mime_type (SPREADSHEET cfg) = false).
  { apply String.eqb_neq. set_solver. }
  rewrite Hnative, (file_getitem_present _ _ _ Hid). simpl.
  destruct (files_export w file_id "text/plain") as [exported|e]; simpl;
    [|reflexivity].
  destruct (decode_utf8 w exported); reflexivity.
Qed.

Lemma documents_are_exported_as_plain_text_witness :
  _extract_sections_basic sample_config sheets_down_world google_doc_file
  = Returns [mkSection "https://drive.example/f5" "a,b"].
Proof.
  apply (documents_are_exported_as_plain_text sample_config sheets_down_world
           google_doc_file "application/vnd.google-apps.document"
           "https://drive.example/f5" "f5").
  - reflexivity.
  - reflexivity.
  - reflexivity.
  - apply in_list_elem_of. reflexivity.
  - intros Hin. apply in_list_elem_of in Hin. vm_compute in Hin. discriminate.
Defined.

(** ** More on the assembler and the slim projection *)

Section AssemblerShape.

Variable cfg : Config.
Variable w : World.
Variable file : GoogleDriveFileType.

(** A document leaves the function only through the [return] of line 284. *)
Lemma convert_document_from_body (doc : Document) :
  convert_drive_item_to_document cfg w file = Returns (Some doc) →
  convert_drive_item_body cfg w file = Returns (Some doc).
Proof.
  rewrite convert_of_body.
  destruct (convert_drive_item_body cfg w file) as [result|e|]; try discriminate.
  - intros [= ->]. reflexivity.
  - destruct (CONTINUE_ON_CONNECTOR_FAILURE cfg); discriminate.
Qed.

(** Lines 281-296 on the sections that reach them. *)
Lemma body_with_sections (structured found : list TextSection) :
  mime_type_is file (DRIVE_SHORTCUT_TYPE cfg) = false →
  mime_type_is file (DRIVE_FOLDER_TYPE cfg) = false →
  structured_sections cfg w file = Returns structured →
  generic_sections cfg w file structured = Returns (Some found) →
  convert_drive_item_body cfg w file
  = if negb (truthy found) then Returns None
    else
      id ← file_getitem file "webViewLink";
      semantic_identifier ← file_getitem file "name";
      modified_time ← file_getitem file "modifiedTime";
      doc_updated_at ← call (fromisoformat_utc w modified_time);
      Returns (Some (mkDocument id found semantic_identifier doc_updated_at
                       (document_metadata cfg found) (file_get file "id"))).
Proof.
  intros Hshortcut Hfolder Hstructured Hgeneric. unfold convert_drive_item_body.
  rewrite Hshortcut, Hfolder, Hstructured. simpl. rewrite Hgeneric. reflexivity.
Qed.

(** What a returned document says about the descriptor. *)
Lemma body_document_fields (doc : Document) :
  convert_drive_item_body cfg w file = Returns (Some doc) →
  mime_type_is file (DRIVE_SHORTCUT_TYPE cfg) = false
  ∧ mime_type_is file (DRIVE_FOLDER_TYPE cfg) = false
  ∧ file_get file "webViewLink" = Some (id doc)
  ∧ file_get file "name" = Some (semantic_identifier doc)
  ∧ (∃ modified_time,
       file_get file "modifiedTime" = Some modified_time
       ∧ fromisoformat_utc w modified_time = Ok (doc_updated_at doc))
  ∧ additional_info doc = file_get file "id"
  ∧ metadata doc = document_metadata cfg (sections doc).
Proof.
  unfold convert_drive_item_body.
  destruct (mime_type_is file (DRIVE_SHORTCUT_TYPE cfg)); [discriminate|].
  destruct (mime_type_is file (DRIVE_FOLDER_TYPE cfg)); [discriminate|].
  destruct (structured_sections cfg w file) as [structured| |];
    simpl; try discriminate.
  destruct (generic_sections cfg w file structured) as [[found|]| |];
    simpl; try discriminate.
  destruct (negb (truthy found)); [discriminate|].
  unfold file_getitem, getitem, file_get.
  destruct (str_fields file !! "webViewLink"); simpl; try discriminate.
  destruct (str_fields file !! "name"); simpl; try discriminate.
  destruct (str_fields file !! "modifiedTime") as [modified_time|]; simpl;
    try discriminate.
  destruct (fromisoformat_utc w modified_time) eqn:Hparse; simpl; try discriminate.
  intros [= <-]. simpl. repeat split; eauto.
Qed.

(** The metadata of a list of sections is empty when a text is not, and
    the single flag entry when all texts are. *)
Lemma document_metadata_flag (found : list TextSection) :
  document_metadata cfg found !! IGNORE_FOR_QA cfg = Some "True"
  ↔ Forall (λ section, text section = "") found.
Proof.
  unfold document_metadata.
  destruct (existsb _ found) eqn:Hany.
  - split; [rewrite lookup_empty; discriminate|].
    intros Hall. apply existsb_exists in Hany as (section & Hin & Htext).
    apply list_elem_of_In in Hin.
    rewrite (proj1 (Forall_forall _ _) Hall section Hin) in Htext. discriminate.
  - split; [|intros _; apply lookup_singleton_eq].
    intros _. apply Forall_forall. intros section Hin.
    destruct (String.eqb_spec (text section) "") as [Hempty|Hfull]; [exact Hempty|].
    assert (existsb (λ s, negb (String.eqb (text s) "")) found = true);
      [|congruence].
    apply existsb_exists. exists section. split; [apply list_elem_of_In, Hin|].
    apply String.eqb_neq in Hfull. rewrite Hfull. reflexivity.
Qed.

(** The Google Docs attempt when the structured extractor raises or
    returns nothing and the handler can log the file's name. *)
Lemma structured_sections_failed (file_id file_name : string) :
  mime_type_is file (DOC cfg) = true →
  file_get file "id" = Some file_id →
  file_get file "name" = Some file_name →
  (get_document_sections w file_id = Ok [] ∨ ∃ e, get_document_sections w file_id = Err e) →
  structured_sections cfg w file = Returns [].
Proof.
  intros Hdoc Hid Hname Hdown. unfold structured_sections.
  rewrite Hdoc, (file_getitem_present _ _ _ Hid). simpl.
  destruct Hdown as [->|[e ->]]; simpl; [reflexivity|].
  rewrite (file_getitem_present _ _ _ Hname). reflexivity.
Qed.

(** The generic path hands on what the extractor returns. *)
Lemma generic_sections_of_extractor (found : list TextSection) :
  _extract_sections_basic cfg w file = Returns found →
  generic_sections cfg w file [] = Returns (Some found).
Proof. intros Hrun. unfold generic_sections. simpl. rewrite Hrun. reflexivity. Qed.

End AssemblerShape.

(** X14: a folder or a shortcut is skipped by both entry points: the
    assembler and the slim projection return [None], whatever the other
    fields of the descriptor, the collaborators and the failure flag. *)
Theorem folders_and_shortcuts_are_skipped
    (cfg : Config) (w : World) (file : GoogleDriveFileType) (mime_type : string) :
  file_get file "mimeType" = Some mime_type →
  mime_type ∈ [DRIVE_FOLDER_TYPE cfg; DRIVE_SHORTCUT_TYPE cfg] →
  convert_drive_item_to_document cfg w file = Returns None
  ∧ build_slim_document cfg file = Returns None.
Proof.
  intros Hmime Hdir. split.
  - rewrite convert_of_body. unfold convert_drive_item_body, mime_type_is.
    rewrite Hmime.
    destruct (String.eqb_spec mime_type (DRIVE_SHORTCUT_TYPE cfg)); [reflexivity|].
    destruct (String.eqb_spec mime_type (DRIVE_FOLDER_TYPE cfg)); [reflexivity|].
    set_solver.
  - unfold build_slim_document. rewrite Hmime.
    apply in_list_elem_of in Hdir. rewrite Hdir. reflexivity.
Qed.

Lemma folders_and_shortcuts_are_skipped_witness :
  convert_drive_item_to_document sample_config offline_world folder_file
  = Returns None
  ∧ build_slim_document sample_config folder_file = Returns None.
Proof.
  apply (folders_and_shortcuts_are_skipped sample_config offline_world folder_file
           "application/vnd.google-apps.folder").
  - reflexivity.
  - apply in_list_elem_of. reflexivity.
Defined.

(** X15: with the continue-on-connector-failure flag set, the assembler
    raises nothing, whatever the descriptor and the collaborators do. *)
Theorem continue_on_failure_never_raises
    (cfg : Config) (w : World) (file : GoogleDriveFileType) :
  CONTINUE_ON_CONNECTOR_FAILURE cfg = true →
  ∀ e, convert_drive_item_to_document cfg w file ≠ Raises e.
Proof.
  intros Hflag e. rewrite convert_of_body, Hflag.
  destruct (convert_drive_item_body cfg w file); discriminate.
Qed.

Lemma continue_on_failure_never_raises_witness :
  convert_drive_item_body sample_config offline_world file_without_mime_type
  = Raises (KeyError "mimeType")
  ∧ convert_drive_item_to_document
      (with_continue_on_failure sample_config true) offline_world
      file_without_mime_type ≠ Raises (KeyError "mimeType").
Proof.
  split; [reflexivity|].
  apply (continue_on_failure_never_raises
           (with_continue_on_failure sample_config true) offline_world
           file_without_mime_type).
  reflexivity.
Defined.

(** X16: when the structured extractor returns sections for a Google Doc,
    the document holds exactly those sections; the Drive export is not
    consulted. The document's id is the view link, its identifier the
    name, its time the parsed modification time and its additional info
    the file id. *)
Theorem structured_sections_are_kept
    (cfg : Config) (w : World) (file : GoogleDriveFileType)
    (view_link file_id file_name modified_time : string)
    (updated_at : Z) (first : TextSection) (others : list TextSection) :
  file_get file "mimeType" = Some (DOC cfg) →
  DOC cfg ∉ [DRIVE_SHORTCUT_TYPE cfg; DRIVE_FOLDER_TYPE cfg] →
  file_get file "id" = Some file_id →
  get_document_sections w file_id = Ok (first :: others) →
  file_get file "webViewLink" = Some view_link →
  file_get file "name" = Some file_name →
  file_get file "modifiedTime" = Some modified_time →
  fromisoformat_utc w modified_time = Ok updated_at →
  convert_drive_item_to_document cfg w file
  = Returns (Some (mkDocument view_link (first :: others) file_name updated_at
                     (document_metadata cfg (first :: others)) (Some file_id))).
Proof.
  intros Hmime Hdir Hid Hdocs Hlink Hname Hmodified Hparse.
  assert (Hshortcut : mime_type_is file (DRIVE_SHORTCUT_TYPE cfg) = false).
  { unfold mime_type_is. rewrite Hmime. apply String.eqb_neq. set_solver. }
  assert (Hfolder : mime_type_is file (DRIVE_FOLDER_TYPE cfg) = false).
  { unfold mime_type_is. rewrite Hmime. apply String.eqb_neq. set_solver. }
  assert (Hstructured : structured_sections cfg w file = Returns (first :: others)).
  { unfold structured_sections, mime_type_is.
    rewrite Hmime, String.eqb_refl, (file_getitem_present _ _ _ Hid). simpl.
    rewrite Hdocs. reflexivity. }
  rewrite convert_of_body.
  rewrite (body_with_sections cfg w file _ (first :: others) Hshortcut Hfolder
             Hstructured eq_refl). simpl.
  rewrite (file_getitem_present _ _ _ Hlink), (file_getitem_present _ _ _ Hname),
    (file_getitem_present _ _ _ Hmodified). simpl.
  rewrite Hparse. simpl. unfold file_get in Hid. unfold file_get. rewrite Hid.
  reflexivity.
Qed.

Lemma structured_sections_are_kept_witness :
  convert_drive_item_to_document sample_config docs_world google_doc_file
  = Returns (Some
      (mkDocument "https://drive.example/f5"
         [mkSection "https://drive.example/f5#h1" "Agenda";
          mkSection "https://drive.example/f5#h2" ""]
         "minutes" 1700000000 ∅ (Some "f5"))).
Proof.
  apply (structured_sections_are_kept sample_config docs_world google_doc_file
           "https://drive.example/f5" "f5" "minutes" "2024-01-01T00:00:00Z"
           1700000000);
    try reflexivity.
  intros Hin. apply in_list_elem_of in Hin. vm_compute in Hin. discriminate.
Defined.

(** X17: when the structured extractor raises, or returns no section, for
    a Google Doc that has a name, the assembler falls back on the section
    extractor: the document holds the sections the extractor returns. *)
Theorem structured_failure_falls_back_to_extractor
    (cfg : Config) (w : World) (file : GoogleDriveFileType)
    (view_link file_id file_name modified_time : string)
    (updated_at : Z) (first : TextSection) (others : list TextSection) :
  file_get file "mimeType" = Some (DOC cfg) →
  DOC cfg ∉ [DRIVE_SHORTCUT_TYPE cfg; DRIVE_FOLDER_TYPE cfg] →
  file_get file "id" = Some file_id →
  (get_document_sections w file_id = Ok []
   ∨ ∃ e, get_document_sections w file_id = Err e) →
  _extract_sections_basic cfg w file = Returns (first :: others) →
  file_get file "webViewLink" = Some view_link →
  file_get file "name" = Some file_name →
  file_get file "modifiedTime" = Some modified_time →
  fromisoformat_utc w modified_time = Ok updated_at →
  convert_drive_item_to_document cfg w file
  = Returns (Some (mkDocument view_link (first :: others) file_name updated_at
                     (document_metadata cfg (first :: others)) (Some file_id))).
Proof.
  intros Hmime Hdir Hid Hdocs Hrun Hlink Hname Hmodified Hparse.
  assert (Hshortcut : mime_type_is file (DRIVE_SHORTCUT_TYPE cfg) = false).
  { unfold mime_type_is. rewrite Hmime. apply String.eqb_neq. set_solver. }
  assert (Hfolder : mime_type_is file (DRIVE_FOLDER_TYPE cfg) = false).
  { unfold mime_type_is. rewrite Hmime. apply String.eqb_neq. set_solver. }
  assert (Hdoc : mime_type_is file (DOC cfg) = true).
  { unfold mime_type_is. rewrite Hmime. apply String.eqb_refl. }
  rewrite convert_of_body.
  rewrite (body_with_sections cfg w file [] (first :: others) Hshortcut Hfolder
             (structured_sections_failed cfg w file _ _ Hdoc Hid Hname Hdocs)
             (generic_sections_of_extractor cfg w file _ Hrun)). simpl.
  rewrite (file_getitem_present _ _ _ Hlink), (file_getitem_present _ _ _ Hname),
    (file_getitem_present _ _ _ Hmodified). simpl.
  rewrite Hparse. simpl. unfold file_get in Hid. unfold file_get. rewrite Hid.
  reflexivity.
Qed.

Lemma structured_failure_falls_back_to_extractor_witness :
  convert_drive_item_to_document sample_config docs_down_world google_doc_file
  = Returns (Some
      (mkDocument "https://drive.example/f5"
         [mkSection "https://drive.example/f5" "a,b"]
         "minutes" 1700000000 ∅ (Some "f5"))).
Proof.
  apply (structured_failure_falls_back_to_extractor sample_config docs_down_world
           google_doc_file "https://drive.example/f5" "f5" "minutes"
           "2024-01-01T00:00:00Z" 1700000000);
    try reflexivity.
  - intros Hin. apply in_list_elem_of in Hin. vm_compute in Hin. discriminate.
  - right. eexists. reflexivity.
Defined.

(** X18: a returned document carries the ignore-for-QA flag exactly when
    the text of every one of its sections is empty; otherwise its
    metadata is empty. *)
Theorem ignore_for_qa_iff_all_texts_empty
    (cfg : Config) (w : World) (file : GoogleDriveFileType) (doc : Document) :
  convert_drive_item_to_document cfg w file = Returns (Some doc) →
  (metadata doc !! IGNORE_FOR_QA cfg = Some "True"
   ↔ Forall (λ section, text section = "") (sections doc))
  ∧ (metadata doc = ∅ ∨ metadata doc = {[ IGNORE_FOR_QA cfg := "True" ]}).
Proof.
  intros Hrun. apply convert_document_from_body in Hrun.
  destruct (body_document_fields _ _ _ _ Hrun) as (_ & _ & _ & _ & _ & _ & ->).
  split; [apply document_metadata_flag|].
  unfold document_metadata. destruct (existsb _ _); auto.
Qed.

Lemma ignore_for_qa_iff_all_texts_empty_witness :
  (∅ : gmap string string) !! IGNORE_FOR_QA sample_config = Some "True"
  ↔ Forall (λ section, text section = "")
      [mkSection "https://drive.example/f5#h1" "Agenda";
       mkSection "https://drive.example/f5#h2" ""].
Proof.
  apply (proj1 (ignore_for_qa_iff_all_texts_empty sample_config docs_world
                  google_doc_file
                  (mkDocument "https://drive.example/f5"
                     [mkSection "https://drive.example/f5#h1" "Agenda";
                      mkSection "https://drive.example/f5#h2" ""]
                     "minutes" 1700000000 ∅ (Some "f5"))
                  eq_refl)).
Defined.

(** X19: a document is returned only for a descriptor that is neither a
    shortcut nor a folder and has a view link, a name and a modification
    time that parses; the document's id, identifier, time and additional
    info are the descriptor's view link, name, parsed time and id. *)
Theorem document_carries_descriptor_fields
    (cfg : Config) (w : World) (file : GoogleDriveFileType) (doc : Document) :
  convert_drive_item_to_document cfg w file = Returns (Some doc) →
  mime_type_is file (DRIVE_SHORTCUT_TYPE cfg) = false
  ∧ mime_type_is file (DRIVE_FOLDER_TYPE cfg) = false
  ∧ file_get file "webViewLink" = Some (id doc)
  ∧ file_get file "name" = Some (semantic_identifier doc)
  ∧ (∃ modified_time,
       file_get file "modifiedTime" = Some modified_time
       ∧ fromisoformat_utc w modified_time = Ok (doc_updated_at doc))
  ∧ additional_info doc = file_get file "id".
Proof.
  intros Hrun. apply convert_document_from_body in Hrun.
  destruct (body_document_fields _ _ _ _ Hrun)
    as (Hshortcut & Hfolder & Hlink & Hname & Htime & Hinfo & _).
  auto 10.
Qed.

Lemma document_carries_descriptor_fields_witness :
  file_get google_doc_file "webViewLink" = Some "https://drive.example/f5"
  ∧ file_get google_doc_file "name" = Some "minutes".
Proof.
  destruct (document_carries_descriptor_fields sample_config docs_world
              google_doc_file
              (mkDocument "https://drive.example/f5"
                 [mkSection "https://drive.example/f5#h1" "Agenda";
                  mkSection "https://drive.example/f5#h2" ""]
                 "minutes" 1700000000 ∅ (Some "f5"))
              eq_refl) as (_ & _ & Hlink & Hname & _).
  split; [exact Hlink|exact Hname].
Defined.

(** ** Native spreadsheets: dropped files and aborted runs *)

Section NativeRuns.

Variable cfg : Config.
Variable w : World.
Variable file : GoogleDriveFileType.
Variables view_link file_id : string.
Variable spreadsheet : Spreadsheet.
Hypothesis Hmime : file_get file "mimeType" = Some (SPREADSHEET cfg).
Hypothesis Hlink : file_get file "webViewLink" = Some view_link.
Hypothesis Hid : file_get file "id" = Some file_id.
Hypothesis Hbuild : sheets_build w = Ok ().
Hypothesis Hmeta : spreadsheets_get w file_id = Ok spreadsheet.

(** With the client built and the metadata read, the native branch is
    the loop over the sheets. *)
Lemma sheets_extraction_is_loop :
  sheets_extraction w file view_link
  = sheets_loop w file view_link (sheets spreadsheet) [].
Proof.
  unfold sheets_extraction. rewrite Hbuild. simpl.
  rewrite (file_getitem_present _ _ _ Hid). simpl. rewrite Hmeta. reflexivity.
Qed.

Lemma native_extract_of_loop (sections : list TextSection) :
  sheets_loop w file view_link (sheets spreadsheet) [] = Returns sections →
  _extract_sections_basic cfg w file = Returns sections.
Proof.
  intros Hloop.
  rewrite (extract_with_keys cfg w _ _ _ Hmime Hlink), spreadsheet_is_supported.
  simpl. unfold strategies, spreadsheet_branches.
  rewrite String.eqb_refl, sheets_extraction_is_loop, Hloop. reflexivity.
Qed.

Lemma sheets_loop_app (before after : list SheetProperties) :
  ∀ sections,
    sheets_loop w file view_link (before ++ after) sections
    = sections' ← sheets_loop w file view_link before sections;
      sheets_loop w file view_link after sections'.
Proof.
  induction before as [|sheet before IH]; intros sections; simpl; [reflexivity|].
  destruct (column_letters (column_count sheet)) as [end_column|]; [|reflexivity].
  destruct (fetch_sheet w file view_link sheet end_column sections); simpl;
    [apply IH|reflexivity|reflexivity].
Qed.

End NativeRuns.

(** X20: a native spreadsheet in which no sheet yields values (every
    fetch succeeds without values or raises [HttpError]) gives an empty
    list of sections, with no fallback to the export; the assembler then
    drops the file and returns [None]. *)
Theorem spreadsheet_without_values_is_dropped
    (cfg : Config) (w : World) (file : GoogleDriveFileType)
    (view_link file_id : string) (spreadsheet : Spreadsheet) :
  file_get file "mimeType" = Some (SPREADSHEET cfg) →
  SPREADSHEET cfg ≠ DOC cfg →
  file_get file "webViewLink" = Some view_link →
  file_get file "id" = Some file_id →
  sheets_build w = Ok () →
  spreadsheets_get w file_id = Ok spreadsheet →
  forallb (fetch_succeeds_or_http_error w file_id) (sheets spreadsheet) = true →
  forallb (λ sheet, negb (fetch_has_values w file_id sheet)) (sheets spreadsheet)
  = true →
  _extract_sections_basic cfg w file = Returns []
  ∧ convert_drive_item_to_document cfg w file = Returns None.
Proof.
  intros Hmime Hdoc Hlink Hid Hbuild Hmeta Hfetches Hempty.
  assert (Hrun : _extract_sections_basic cfg w file = Returns []).
  { destruct (sheets_loop_sections w file view_link file_id Hid
                (sheets spreadsheet) [] Hfetches) as (added & Hloop & Hadded).
    replace (filter (λ sheet, fetch_has_values w file_id sheet = true)
                    (sheets spreadsheet)) with (@nil SheetProperties) in Hadded.
    - inversion Hadded; subst.
      apply (native_extract_of_loop cfg w file view_link file_id spreadsheet);
        assumption.
    - symmetry. clear Hadded Hloop Hfetches Hmeta.
      induction (sheets spreadsheet) as [|sheet rest IH]; [reflexivity|].
      simpl in Hempty. apply andb_true_iff in Hempty as [Hsheet Hrest].
      rewrite filter_cons, decide_False; [apply IH, Hrest|].
      apply negb_true_iff in Hsheet. rewrite Hsheet. discriminate. }
  split; [exact Hrun|].
  rewrite convert_of_body. unfold convert_drive_item_body.
  destruct (mime_type_is file (DRIVE_SHORTCUT_TYPE cfg)); [reflexivity|].
  destruct (mime_type_is file (DRIVE_FOLDER_TYPE cfg)); [reflexivity|].
  unfold structured_sections, mime_type_is. rewrite Hmime.
  apply String.eqb_neq in Hdoc. rewrite Hdoc. simpl.
  rewrite (generic_sections_of_extractor _ _ _ _ Hrun). reflexivity.
Qed.

Lemma spreadsheet_without_values_is_dropped_witness :
  _extract_sections_basic sample_config blank_sheet_world native_sheet_file
  = Returns []
  ∧ convert_drive_item_to_document sample_config blank_sheet_world native_sheet_file
    = Returns None.
Proof.
  apply (spreadsheet_without_values_is_dropped sample_config blank_sheet_world
           native_sheet_file "https://drive.example/f6" "f6"
           (mkSpreadsheet [mkSheet "Sheet1" 0 None]));
    try reflexivity.
  discriminate.
Defined.

(** X21: when the fetch of a sheet raises an exception that is not an
    [HttpError], after sheets whose fetches succeeded or raised
    [HttpError], the native branch as a whole raises that exception,
    whatever sections the earlier sheets had given. *)
Theorem other_fetch_error_aborts_native_branch
    (w : World) (file : GoogleDriveFileType) (view_link file_id : string)
    (spreadsheet : Spreadsheet) (before after : list SheetProperties)
    (sheet : SheetProperties) (end_column : string) (e : exn) :
  file_get file "id" = Some file_id →
  sheets_build w = Ok () →
  spreadsheets_get w file_id = Ok spreadsheet →
  sheets spreadsheet = before ++ sheet :: after →
  forallb (fetch_succeeds_or_http_error w file_id) before = true →
  column_letters (column_count sheet) = Some end_column →
  values_get w file_id (range_name sheet end_column) = Err e →
  (∀ info, e ≠ HttpError info) →
  sheets_extraction w file view_link = Raises e.
Proof.
  intros Hid Hbuild Hmeta Hsheets Hbefore Hcolumn Hfetch Hother.
  rewrite (sheets_extraction_is_loop w file view_link file_id spreadsheet
             Hid Hbuild Hmeta).
  rewrite Hsheets, sheets_loop_app.
  destruct (sheets_loop_sections w file view_link file_id Hid before [] Hbefore)
    as (added & -> & _). simpl.
  rewrite Hcolumn. unfold fetch_sheet.
  rewrite (file_getitem_present _ _ _ Hid). simpl. rewrite Hfetch. simpl.
  destruct e; try reflexivity. destruct (Hother info eq_refl).
Qed.

Lemma other_fetch_error_aborts_native_branch_witness :
  sheets_extraction (quarterly_world (Err (OtherError "TimeoutError")))
    native_sheet_file "https://drive.example/f6"
  = Raises (OtherError "TimeoutError").
Proof.
  apply (other_fetch_error_aborts_native_branch
           (quarterly_world (Err (OtherError "TimeoutError"))) native_sheet_file
           "https://drive.example/f6" "f6" quarterly_sheets
           [mkSheet "Q1" 0 None]
           [mkSheet "Q3" 9 (Some (mkGrid None (Some 28)))]
           (mkSheet "Q2" 7 (Some (mkGrid (Some 20) (Some 3)))) "C");
    try reflexivity.
  discriminate.
Defined.

(** ** The slim projection and the assembler together *)

(** X22: the slim projection returns [None] exactly for folders and
    shortcuts, and raises exactly when the descriptor is neither and has
    no view link or has an empty owners list; in every other case it
    returns a slim document, and the id of a slim document is the view
    link. *)
Theorem slim_projection_outcomes (cfg : Config) (file : GoogleDriveFileType) :
  (build_slim_document cfg file = Returns None
   ↔ mime_type_is file (DRIVE_FOLDER_TYPE cfg)
     || mime_type_is file (DRIVE_SHORTCUT_TYPE cfg) = true)
  ∧ ((∃ e, build_slim_document cfg file = Raises e)
     ↔ mime_type_is file (DRIVE_FOLDER_TYPE cfg)
       || mime_type_is file (DRIVE_SHORTCUT_TYPE cfg) = false
       ∧ (file_get file "webViewLink" = None ∨ file_owners file = Some []))
  ∧ (∀ slim, build_slim_document cfg file = Returns (Some slim) →
             file_get file "webViewLink" = Some (slim_id slim))
  ∧ build_slim_document cfg file ≠ Diverges.
Proof.
  unfold build_slim_document, mime_type_is, in_list, file_getitem,
    getitem, file_get.
  destruct (str_fields file !! "mimeType") as [mime_type|]; simpl;
    rewrite ?orb_false_r;
    try destruct (String.eqb mime_type (DRIVE_FOLDER_TYPE cfg)
                  || String.eqb mime_type (DRIVE_SHORTCUT_TYPE cfg));
    destruct (str_fields file !! "webViewLink") as [view_link|];
    destruct (file_owners file) as [[|first_owner others]|]; simpl;
    naive_solver.
Qed.

Lemma slim_projection_outcomes_witness :
  build_slim_document sample_config folder_file = Returns None
  ∧ ∃ e, build_slim_document sample_config empty_owners_file = Raises e.
Proof.
  destruct (slim_projection_outcomes sample_config folder_file)
    as ([_ Hskip] & _ & _ & _).
  destruct (slim_projection_outcomes sample_config empty_owners_file)
    as (_ & [_ Hraise] & _ & _).
  split; [apply Hskip; reflexivity|].
  apply Hraise. split; [reflexivity|right; reflexivity].
Defined.

(** X23: the document and the slim document of one descriptor have the
    same id, the descriptor's view link. *)
Theorem document_and_slim_document_share_id
    (cfg : Config) (w : World) (file : GoogleDriveFileType)
    (doc : Document) (slim : SlimDocument) :
  convert_drive_item_to_document cfg w file = Returns (Some doc) →
  build_slim_document cfg file = Returns (Some slim) →
  id doc = slim_id slim.
Proof.
  intros Hdoc Hslim. apply convert_document_from_body in Hdoc.
  destruct (body_document_fields _ _ _ _ Hdoc) as (_ & Hfolder & Hlink & _).
  revert Hslim. unfold build_slim_document, file_getitem, getitem.
  unfold file_get in Hlink. rewrite Hlink.
  destruct (match file_get file "mimeType" with
            | Some mime_type =>
                in_list mime_type [DRIVE_FOLDER_TYPE cfg; DRIVE_SHORTCUT_TYPE cfg]
            | None => false
            end); [discriminate|]. simpl.
  destruct (first_item _); simpl; try discriminate.
  intros [= <-]. reflexivity.
Qed.

Lemma document_and_slim_document_share_id_witness :
  "https://drive.example/f3"
  = slim_id (mkSlimDocument "https://drive.example/f3"
               (mkPermSyncData (Some "f3") None [] [] (Some "photo.png") None)).
Proof.
  apply (document_and_slim_document_share_id sample_config offline_world image_file
           (mkDocument "https://drive.example/f3"
              [mkSection "https://drive.example/f3" "This file type is not supported"]
              "photo.png" 1700000000 ∅ (Some "f3")));
    reflexivity.
Defined.

(** X24: a descriptor without a MIME type is never turned into a
    document: the [KeyError] of the extractor reaches the boundary, which
    re-raises it or, with the failure flag set, returns [None]. *)
Theorem descriptor_without_mime_type_is_not_converted
    (cfg : Config) (w : World) (file : GoogleDriveFileType) :
  file_get file "mimeType" = None →
  convert_drive_item_to_document cfg w file
  = if CONTINUE_ON_CONNECTOR_FAILURE cfg then Returns None
    else Raises (KeyError "mimeType").
Proof.
  intros Hmime. rewrite convert_of_body.
  unfold convert_drive_item_body, structured_sections, mime_type_is.
  rewrite Hmime. simpl. unfold generic_sections, _extract_sections_basic. simpl.
  rewrite (file_getitem_absent _ _ Hmime). reflexivity.
Qed.

Lemma descriptor_without_mime_type_is_not_converted_witness :
  convert_drive_item_to_document sample_config offline_world file_without_mime_type
  = Raises (KeyError "mimeType").
Proof.
  apply (descriptor_without_mime_type_is_not_converted
           sample_config offline_world file_without_mime_type).
  reflexivity.
Defined.

(** ** Native spreadsheets: the sections written out *)

Section NativeSections.

Variable w : World.
Variable file : GoogleDriveFileType.
Variables view_link file_id : string.
Hypothesis Hid : file_get file "id" = Some file_id.

Lemma omap_cons_match {A B} (f : A → option B) (x : A) (l : list A) :
  omap f (x :: l)
  = match f x with
    | Some y => y :: omap f l
    | None => omap f l
    end.
Proof. reflexivity. Qed.

Lemma fetch_outcome_of_answer (sheet : SheetProperties) :
  fetch_succeeds_or_http_error w file_id sheet
  = match sheet_fetch w file_id sheet with
    | Some answer => is_answer_or_http_error answer
    | None => false
    end.
Proof.
  unfold fetch_succeeds_or_http_error.
  destruct (sheet_fetch w file_id sheet) as [[answer|e]|]; reflexivity.
Qed.

(** One turn of the loop appends the section of the answer, if it has one. *)
Lemma fetch_sheet_exact (sheet : SheetProperties) (end_column : string)
    (sections : list TextSection) :
  is_answer_or_http_error (values_get w file_id (range_name sheet end_column))
  = true →
  fetch_sheet w file view_link sheet end_column sections
  = Returns (sections
             ++ option_list
                  (section_of_answer view_link sheet
                     (values_get w file_id (range_name sheet end_column)))).
Proof.
  unfold fetch_sheet. rewrite (file_getitem_present _ _ _ Hid). simpl.
  destruct (values_get w file_id (range_name sheet end_column)) as [answer|e];
    simpl.
  - intros _. destruct (default [] (values answer)) as [|row rows]; simpl.
    + rewrite app_nil_r. reflexivity.
    + unfold sheet_text. rewrite sheet_text_from. reflexivity.
  - destruct e; try discriminate. intros _. simpl. rewrite app_nil_r. reflexivity.
Qed.

Lemma sheets_loop_exact (todo : list SheetProperties) :
  ∀ sections,
    forallb (fetch_succeeds_or_http_error w file_id) todo = true →
    sheets_loop w file view_link todo sections
    = Returns (sections ++ omap (sheet_section w file_id view_link) todo).
Proof.
  induction todo as [|sheet todo IH]; intros sections Hall; simpl.
  - rewrite app_nil_r. reflexivity.
  - simpl in Hall. apply andb_true_iff in Hall as [Hsheet Hrest].
    rewrite fetch_outcome_of_answer in Hsheet.
    unfold sheet_section at 1. unfold sheet_fetch in Hsheet |- *.
    destruct (column_letters (column_count sheet)) as [end_column|];
      simpl in Hsheet |- *; [|discriminate].
    rewrite (fetch_sheet_exact _ _ _ Hsheet). simpl. rewrite (IH _ Hrest).
    destruct (section_of_answer view_link sheet _); simpl;
      rewrite <- ?app_assoc, ?app_nil_r; reflexivity.
Qed.

(** For sheets without declared extent the request is the one for the
    range [A1:Z1000] of the sheet. *)
Lemma undeclared_sheets_fetches (todo : list SheetProperties) :
  forallb undeclared_extent todo = true →
  forallb (fetch_succeeds_or_http_error w file_id) todo
  = forallb (λ sheet,
               is_answer_or_http_error
                 (values_get w file_id ("'" +:+ title sheet +:+ "'!A1:Z1000")))
      todo
  ∧ omap (sheet_section w file_id view_link) todo
    = omap (λ sheet,
              section_of_answer view_link sheet
                (values_get w file_id ("'" +:+ title sheet +:+ "'!A1:Z1000")))
        todo.
Proof.
  induction todo as [|sheet todo IH]; [split; reflexivity|].
  intros Hall. simpl in Hall. apply andb_true_iff in Hall as [Hsheet Hrest].
  destruct (IH Hrest) as [Hfetches Hsections]. split.
  - simpl. rewrite Hfetches, fetch_outcome_of_answer.
    rewrite (sheet_fetch_undeclared_extent w file_id sheet Hsheet). reflexivity.
  - rewrite !omap_cons_match, Hsections. unfold sheet_section.
    rewrite (sheet_fetch_undeclared_extent w file_id sheet Hsheet). reflexivity.
Qed.

End NativeSections.

(** X5: for a native spreadsheet whose Sheets client is built and whose
    metadata call succeeds, and in which the values fetch of every sheet
    succeeds or raises [HttpError], the extractor returns exactly this
    list: in sheet order, for each sheet whose fetch succeeds with values
    that are not empty, the section whose link is the view link followed
    by [#gid=<sheet id>] and whose text is the line ["Sheet: <title>"]
    followed by one line per row, each line being the row's cells as [str]
    renders them, separated by tabs and ended by a newline. *)
Theorem native_spreadsheet_sections_written_out
    (cfg : Config) (w : World) (file : GoogleDriveFileType)
    (view_link file_id : string) (spreadsheet : Spreadsheet) :
  file_get file "mimeType" = Some (SPREADSHEET cfg) →
  file_get file "webViewLink" = Some view_link →
  file_get file "id" = Some file_id →
  sheets_build w = Ok () →
  spreadsheets_get w file_id = Ok spreadsheet →
  forallb (fetch_succeeds_or_http_error w file_id) (sheets spreadsheet) = true →
  _extract_sections_basic cfg w file
  = Returns
      (omap (λ sheet,
               answer ← sheet_fetch w file_id sheet;
               match answer with
               | Ok range =>
                   match default [] (values range) with
                   | [] => None
                   | rows =>
                       Some (mkSection
                               (view_link +:+ "#gid=" +:+ pretty (sheetId sheet))
                               (("Sheet: " +:+ title sheet +:+ newline)
                                +:+ concat_strings
                                      (map (λ row,
                                              String.concat tab (map py_str row)
                                              +:+ newline)
                                           rows)))
                   end
               | Err _ => None
               end)
            (sheets spreadsheet)).
Proof.
  intros Hmime Hlink Hid Hbuild Hmeta Hfetches.
  apply (native_extract_of_loop cfg w file view_link file_id spreadsheet
           Hmime Hlink Hid Hbuild Hmeta).
  rewrite (sheets_loop_exact w file view_link file_id Hid _ [] Hfetches).
  reflexivity.
Qed.

Lemma native_spreadsheet_sections_written_out_witness :
  _extract_sections_basic sample_config
    (quarterly_world (Err (HttpError sheet_quota_exceeded))) native_sheet_file
  = Returns [mkSection "https://drive.example/f6#gid=0"
               ("Sheet: Q1" +:+ newline +:+ "item" +:+ tab +:+ "12" +:+ newline)].
Proof.
  apply (native_spreadsheet_sections_written_out sample_config
           (quarterly_world (Err (HttpError sheet_quota_exceeded)))
           native_sheet_file "https://drive.example/f6" "f6" quarterly_sheets);
    reflexivity.
Defined.

(** X6: the sheets of a native spreadsheet that declare no extent (no
    [gridProperties], or none with [rowCount] and [columnCount]) are
    fetched over the default extent of 1000 rows and 26 columns: when the
    answers to the requests for the ranges ['<title>'!A1:Z1000] are value
    ranges or [HttpError]s, the sections the extractor returns are those
    of these answers, in sheet order. *)
Theorem undeclared_extents_are_fetched_to_Z1000
    (cfg : Config) (w : World) (file : GoogleDriveFileType)
    (view_link file_id : string) (spreadsheet : Spreadsheet) :
  file_get file "mimeType" = Some (SPREADSHEET cfg) →
  file_get file "webViewLink" = Some view_link →
  file_get file "id" = Some file_id →
  sheets_build w = Ok () →
  spreadsheets_get w file_id = Ok spreadsheet →
  forallb undeclared_extent (sheets spreadsheet) = true →
  forallb (λ sheet,
             is_answer_or_http_error
               (values_get w file_id ("'" +:+ title sheet +:+ "'!A1:Z1000")))
    (sheets spreadsheet) = true →
  _extract_sections_basic cfg w file
  = Returns
      (omap (λ sheet,
               section_of_answer view_link sheet
                 (values_get w file_id ("'" +:+ title sheet +:+ "'!A1:Z1000")))
            (sheets spreadsheet)).
Proof.
  intros Hmime Hlink Hid Hbuild Hmeta Hundeclared Hanswers.
  destruct (undeclared_sheets_fetches w view_link file_id _ Hundeclared)
    as [Hfetches Hsections].
  rewrite <- Hfetches in Hanswers.
  apply (native_extract_of_loop cfg w file view_link file_id spreadsheet
           Hmime Hlink Hid Hbuild Hmeta).
  rewrite (sheets_loop_exact w file view_link file_id Hid _ [] Hanswers).
  rewrite Hsections. reflexivity.
Qed.

Lemma undeclared_extents_are_fetched_to_Z1000_witness :
  _extract_sections_basic sample_config default_extent_world native_sheet_file
  = Returns [mkSection "https://drive.example/f6#gid=3"
               ("Sheet: Data" +:+ newline +:+ "a" +:+ tab +:+ "True" +:+ newline)].
Proof.
  apply (undeclared_extents_are_fetched_to_Z1000 sample_config default_extent_world
           native_sheet_file "https://drive.example/f6" "f6"
           (mkSpreadsheet [mkSheet "Data" 3 None;
                           mkSheet "Notes" 4 (Some (mkGrid None None))]));
    reflexivity.
Defined.
